(** * The honeypot turn handler of [main.py], embedded and verified

    [main.py] is a single Flask handler, [handle_honeypot_request], over a
    process-wide dictionary [session_store], with one helper,
    [send_final_report].  Both are embedded below as programs of a small
    state-and-exception monad: the state is the session store together with
    the list of outbound HTTP calls made so far, the exceptions are the
    Python exceptions the code can meet.

    Python is dynamically typed and the handler never checks the shape of
    what it receives, so request bodies, model replies and stored values are
    all decoded JSON values ([json]); every Python primitive the handler
    uses ([in], [x[k]], [x.get], [x.append], truthiness, iteration) is
    defined on all of them, raising where Python raises.

    A Python string is kept as the bytes UTF-8 gives it; a lone surrogate,
    which [json.loads] accepts in an escape, is kept as the three bytes the
    same scheme would give it.  [print] writes to the log of the process and
    raises when the encoder of that log rejects the text. *)

From stdpp Require Import gmap strings list fin_maps.
From Stdlib Require Import ZArith DecimalString Ascii String.

Set Warnings "-register-all".
Local Open Scope Z_scope.
Local Open Scope string_scope.
Local Open Scope list_scope.

(** ** Decoded JSON values

    What [json.loads], [request.get_json()] and [response.json()] return.
    Numbers are kept to the integers.  An object is an association list
    read by first match. *)

Inductive json : Type :=
| JNull
| JBool (b : bool)
| JNum (n : Z)
| JStr (s : string)
| JArr (items : list json)
| JObj (fields : list (string * json)).

Fixpoint dict_get (k : string) (fields : list (string * json)) : option json :=
  match fields with
  | [] => None
  | (k', v) :: rest => if String.eqb k k' then Some v else dict_get k rest
  end.

Definition is_str (s : string) (v : json) : bool :=
  match v with
  | JStr s' => String.eqb s s'
  | _ => false
  end.

Definition has_substring (sub s : string) : bool :=
  match String.index 0 sub s with
  | Some _ => true
  | None => false
  end.

(** ** Python exceptions and results *)

Record http_response : Type := HttpResponse { status_code : Z; text : string }.

Inductive exn : Type :=
| RequestException            (* requests: no response was obtained *)
| HTTPError (r : http_response) (* raised by [raise_for_status], holds the response *)
| JSONDecodeError
| KeyError
| IndexError
| TypeError
| AttributeError
| UnicodeEncodeError.         (* raised by [print] on a text the log cannot encode *)

Inductive result (A : Type) : Type :=
| Ok (a : A)
| Raise (e : exn).
Arguments Ok {A} a.
Arguments Raise {A} e.

Definition rbind {A B : Type} (r : result A) (k : A -> result B) : result B :=
  match r with
  | Ok a => k a
  | Raise e => Raise e
  end.

Fixpoint rmap {A B : Type} (f : A -> result B) (l : list A) : result (list B) :=
  match l with
  | [] => Ok []
  | x :: rest =>
      rbind (f x) (fun y => rbind (rmap f rest) (fun ys => Ok (y :: ys)))
  end.

(** ** Python primitives on JSON values *)

(** [bool(v)]. *)
Definition truthy (v : json) : bool :=
  match v with
  | JNull => false
  | JBool b => b
  | JNum n => negb (Z.eqb n 0)
  | JStr s => negb (String.eqb s EmptyString)
  | JArr items => match items with [] => false | _ => true end
  | JObj fields => match fields with [] => false | _ => true end
  end.

(** [k in v] for a string [k]: key membership on a dict, element membership
    on a list, substring test on a string, [TypeError] otherwise. *)
Definition py_in (k : string) (v : json) : result bool :=
  match v with
  | JObj fields => Ok (match dict_get k fields with Some _ => true | None => false end)
  | JArr items => Ok (existsb (is_str k) items)
  | JStr s => Ok (has_substring k s)
  | JNull | JBool _ | JNum _ => Raise TypeError
  end.

(** [v[k]] for a string [k]. *)
Definition py_getitem (v : json) (k : string) : result json :=
  match v with
  | JObj fields =>
      match dict_get k fields with
      | Some x => Ok x
      | None => Raise KeyError
      end
  | _ => Raise TypeError
  end.

(** [v[0]]. *)
Definition py_getitem0 (v : json) : result json :=
  match v with
  | JArr (x :: _) => Ok x
  | JArr [] => Raise IndexError
  | JStr (String c _) => Ok (JStr (String c EmptyString))
  | JStr EmptyString => Raise IndexError
  | JObj _ => Raise KeyError
  | JNull | JBool _ | JNum _ => Raise TypeError
  end.

(** [v.get(k, default)]: only a dict has the method. *)
Definition py_get (v : json) (k : string) (default : json) : result json :=
  match v with
  | JObj fields =>
      Ok (match dict_get k fields with Some x => x | None => default end)
  | _ => Raise AttributeError
  end.

(** The values [for message in v] runs through. *)
Definition py_iter (v : json) : result (list json) :=
  match v with
  | JArr items => Ok items
  | JObj fields => Ok (map (fun kv => JStr (fst kv)) fields)
  | JStr s => Ok (map (fun c => JStr (String c EmptyString)) (String.list_ascii_of_string s))
  | JNull | JBool _ | JNum _ => Raise TypeError
  end.

(** [v.append(x)]: only a list has the method. *)
Definition py_append (v x : json) : result json :=
  match v with
  | JArr items => Ok (JArr (items ++ [x]))
  | _ => Raise AttributeError
  end.

(** [len(v)]. *)
Definition py_len (v : json) : result Z :=
  match v with
  | JArr items => Ok (Z.of_nat (List.length items))
  | JObj fields => Ok (Z.of_nat (List.length fields))
  | JStr s => Ok (Z.of_nat (String.length s))
  | JNull | JBool _ | JNum _ => Raise TypeError
  end.

(** ** Dictionary keys

    [session_store] is keyed by whatever [data['sessionId']] is.  Lists and
    dicts are unhashable; [True] and [1] (and [False] and [0]) are the same
    key. *)

Inductive pykey : Type :=
| KNone
| KInt (n : Z)
| KStr (s : string).

Global Instance pykey_eq_dec : EqDecision pykey.
Proof. solve_decision. Defined.

Global Instance pykey_countable : Countable pykey.
Proof.
  refine (inj_countable'
            (fun k => match k with
                      | KNone => inl tt
                      | KInt n => inr (inl n)
                      | KStr s => inr (inr s)
                      end)
            (fun x => match x with
                      | inl _ => KNone
                      | inr (inl n) => KInt n
                      | inr (inr s) => KStr s
                      end) _).
  intros []; reflexivity.
Defined.

Definition key_of (v : json) : result pykey :=
  match v with
  | JNull => Ok KNone
  | JBool b => Ok (KInt (if b then 1 else 0))
  | JNum n => Ok (KInt n)
  | JStr s => Ok (KStr s)
  | JArr _ | JObj _ => Raise TypeError
  end.

(** ** The process state and the outside world *)

(** One entry of [session_store]: the dict built at step 5 of the handler.
    Its three keys are always set together, so the entry is a record; the
    values are whatever Python values were put there. *)
Record session : Type := Session {
  history : json;
  intelligence : json;
  agent_notes : json
}.

(** One element of the [contents] list sent to the model:
    [{"role": role, "parts": [{"text": part_text}]}]. *)
Record content : Type := Content { role : string; part_text : json }.

(** Outbound HTTP calls, in the order they are made. *)
Inductive event : Type :=
| GeminiCalled (contents : list content)
| ReportSent (payload : json).

Record world : Type := World {
  session_store : gmap pykey session;
  calls : list event
}.

(** What [requests.post] does: return a response or raise a
    [requests.RequestException] (no connection, timeout, ...). *)
Inductive post_result : Type :=
| PostRaises
| PostReturns (r : http_response).

(** The two collaborators, as the answers they give to one turn's calls.
    The system instruction, [GENERATION_CONFIG] and [SAFETY_SETTINGS] are
    constants of every model request and are left out of its payload. *)
Record network : Type := Network {
  gemini : list content -> post_result;
  guvi : json -> post_result
}.

(** The inbound request, as the handler reads it: the [x-api-key] header
    and the value [request.get_json()] returns. *)
Record request : Type := Request {
  x_api_key : option string;
  get_json : json
}.

(** ** The state-and-exception monad *)

Definition M (A : Type) : Type := world -> result A * world.

Definition ret {A : Type} (a : A) : M A := fun w => (Ok a, w).

Definition raise {A : Type} (e : exn) : M A := fun w => (Raise e, w).

Definition bind {A B : Type} (c : M A) (k : A -> M B) : M B :=
  fun w =>
    match c w with
    | (Ok a, w') => k a w'
    | (Raise e, w') => (Raise e, w')
    end.

Definition lift {A : Type} (r : result A) : M A := fun w => (r, w).

Definition get_store : M (gmap pykey session) :=
  fun w => (Ok (session_store w), w).

Definition modify_store (f : gmap pykey session -> gmap pykey session) : M unit :=
  fun w => (Ok tt, World (f (session_store w)) (calls w)).

Definition emit (e : event) : M unit :=
  fun w => (Ok tt, World (session_store w) (calls w ++ [e])).

(** [try: body  except ...: handler]: a handler is chosen by the exception
    raised; [None] means no clause matches and the exception goes on.  The
    state reached when the exception was raised is kept. *)
Definition try_except {A : Type} (body : M A) (handler : exn -> option (M A)) : M A :=
  fun w =>
    match body w with
    | (Ok a, w') => (Ok a, w')
    | (Raise e, w') =>
        match handler e with
        | Some h => h w'
        | None => (Raise e, w')
        end
    end.

Notation "'let*' x ':=' c 'in' k" := (bind c (fun x => k))
  (at level 10, x name, c at level 100, k at level 200).

(** A Python variable bound to a list that may be the very list object a
    session entry holds: [shared_with = Some k] says the variable and
    [session_store[k]['history']] are one object, so that a mutation through
    the variable is seen in the store. *)
Record listvar : Type := ListVar { shared_with : option pykey; value : json }.

Definition set_history (v : json) (s : session) : session :=
  Session v (intelligence s) (agent_notes s).

(** [var.append(x)], in place. *)
Definition append (var : listvar) (x : json) : M listvar :=
  let* v := lift (py_append (value var) x) in
  let* _ := match shared_with var with
            | Some k => modify_store (alter (set_history v) k)
            | None => ret tt
            end in
  ret (ListVar (shared_with var) v).

(** ** Formatted text

    The texts the program prints are f-strings.  A [Text] piece is text of
    the program itself or text made by the interpreter or by [requests] (a
    status code, the message of an exception); a [Value] piece is text that
    came in with a request or a reply. *)

Inductive piece : Type :=
| Text (s : string)
| Value (s : string).

Definition piece_text (p : piece) : string :=
  match p with
  | Text s => s
  | Value s => s
  end.

Fixpoint render (f : list piece) : string :=
  match f with
  | [] => EmptyString
  | [p] => piece_text p
  | p :: rest => piece_text p +:+ render rest
  end.

Definition decimal (n : Z) : string := NilZero.string_of_int (Z.to_int n).

(** [str(e)] for an exception: text made by the interpreter and by
    [requests]; the model keeps the name of the class. *)
Definition exn_text (e : exn) : string :=
  match e with
  | RequestException => "RequestException"
  | HTTPError _ => "HTTPError"
  | JSONDecodeError => "JSONDecodeError"
  | KeyError => "KeyError"
  | IndexError => "IndexError"
  | TypeError => "TypeError"
  | AttributeError => "AttributeError"
  | UnicodeEncodeError => "UnicodeEncodeError"
  end.

(** ** The program *)

Section Program.

(** [json.loads] on a text: the decoded value, or [None] for a text that is
    not JSON.  [response.json()] is the same decoder on the response text. *)
Variable json_loads : string -> option json.

(** [str(v)], as an f-string renders a value. *)
Variable py_str : json -> string.

(** Whether the encoder of the log accepts a text that came from outside.
    The text of the program and the text the interpreter and [requests]
    make are taken to be accepted: only [Value] pieces are tested. *)
Variable printable : string -> bool.

(** The service secret read from the process environment at start-up. *)
Variable YOUR_API_KEY : string.

(** The collaborators' answers during this turn. *)
Variable net : network.

(** [response.raise_for_status()]: raises on 4xx and 5xx. *)
Definition raise_for_status (r : http_response) : result unit :=
  if ((400 <=? status_code r) && (status_code r <? 600))%Z
  then Raise (HTTPError r)
  else Ok tt.

(** [response.json()]. *)
Definition response_json (r : http_response) : result json :=
  match json_loads (text r) with
  | Some v => Ok v
  | None => Raise JSONDecodeError
  end.

(** [json.loads(v)]: a [TypeError] for anything but a string. *)
Definition loads (v : json) : result json :=
  match v with
  | JStr s =>
      match json_loads s with
      | Some x => Ok x
      | None => Raise JSONDecodeError
      end
  | _ => Raise TypeError
  end.

(** [print(f)]: [UnicodeEncodeError] when a piece cannot be encoded. *)
Definition py_print (f : list piece) : M unit :=
  if forallb (fun p => match p with
                       | Text _ => true
                       | Value s => printable s
                       end) f
  then ret tt
  else raise UnicodeEncodeError.

Definition post_gemini (contents : list content) : M http_response :=
  let* _ := emit (GeminiCalled contents) in
  match gemini net contents with
  | PostRaises => raise RequestException
  | PostReturns r => ret r
  end.

Definition post_guvi (payload : json) : M http_response :=
  let* _ := emit (ReportSent payload) in
  match guvi net payload with
  | PostRaises => raise RequestException
  | PostReturns r => ret r
  end.

(** [except requests.RequestException]: [HTTPError] is a subclass. *)
Definition is_RequestException (e : exn) : bool :=
  match e with
  | RequestException | HTTPError _ => true
  | _ => false
  end.

Definition error_response (message : string) (status : Z) : json * Z :=
  (JObj [("status", JStr "error"); ("message", JStr message)], status).

(** The pair returned at step 7. *)
Definition success_response
    (agent_reply_text is_over session_id intelligence agent_notes : json) : json * Z :=
  (JObj [("status", JStr "success");
         ("agentReply", agent_reply_text);
         ("conversationIsOver", is_over);
         ("sessionId", session_id);
         ("extractedIntelligence", intelligence);
         ("agentNotes", agent_notes)], 200).

Definition report_payload
    (session_id : json) (total_messages : Z) (intelligence agent_notes : json) : json :=
  JObj [("sessionId", session_id);
        ("scamDetected", JBool true);
        ("totalMessagesExchanged", JNum total_messages);
        ("extractedIntelligence", intelligence);
        ("agentNotes", agent_notes)].

(** [send_final_report], lines 77-93.  The [except] clause catches
    [requests.RequestException] only: what a [print] raises goes on to the
    caller. *)
Definition send_final_report
    (session_id : json) (total_messages : Z) (intelligence agent_notes : json) : M unit :=
  let payload := report_payload session_id total_messages intelligence agent_notes in
  try_except
    (let* response := post_guvi payload in
     let* _ := py_print [Text "Callback for session "; Value (py_str session_id);
                         Text " sent. Status: "; Text (decimal (status_code response))] in
     if negb (status_code response =? 200)%Z
     then py_print [Text "Error in callback: "; Value (text response)]
     else ret tt)
    (fun e =>
       if is_RequestException e
       then Some (py_print [Text "Failed to send callback for session ";
                            Value (py_str session_id); Text ": "; Text (exn_text e)])
       else None).

(** Step 1: [not api_key or api_key != YOUR_API_KEY]. *)
Definition unauthorized (api_key : option string) : bool :=
  match api_key with
  | None => true
  | Some k => String.eqb k EmptyString || negb (String.eqb k YOUR_API_KEY)
  end.

(** Step 2: [not data or 'sessionId' not in data or 'message' not in data],
    left to right with short-circuit. *)
Definition invalid_body (data : json) : result bool :=
  if negb (truthy data) then Ok true
  else
    rbind (py_in "sessionId" data) (fun has_id =>
    if negb has_id then Ok true
    else rbind (py_in "message" data) (fun has_msg => Ok (negb has_msg))).

(** Lines 113-115: the caller's history if it is truthy, else the stored
    list object when the session is known, else the caller's (falsy) value
    or the default [[]]. *)
Definition resolve_history (data session_id : json) : M listvar :=
  let* conversation_history := lift (py_get data "conversationHistory" (JArr [])) in
  if truthy conversation_history then ret (ListVar None conversation_history)
  else
    let* k := lift (key_of session_id) in
    let* store := get_store in
    match store !! k with
    | Some s => ret (ListVar (Some k) (history s))
    | None => ret (ListVar None conversation_history)
    end.

(** The loop body of lines 131-134. *)
Definition to_content (message : json) : result content :=
  rbind (py_get message "sender" JNull) (fun sender =>
  rbind (py_get message "text" (JStr EmptyString)) (fun t =>
  Ok (Content (if is_str "scammer" sender then "user" else "model") t))).

(** Lines 130-137. *)
Definition build_contents (conversation_history incoming_message : json) : result (list content) :=
  rbind (py_iter conversation_history) (fun messages =>
  rbind (rmap to_content messages) (fun contents =>
  rbind (py_get incoming_message "text" (JStr EmptyString)) (fun t =>
  Ok (contents ++ [Content "user" t])%list))).

(** Lines 149-154: what is read from the response once [requests.post]
    has returned it. *)
Definition read_model_output (response : http_response) : result json :=
  rbind (raise_for_status response) (fun _ =>
  rbind (response_json response) (fun response_data =>
  rbind (py_getitem response_data "candidates") (fun c =>
  rbind (py_getitem0 c) (fun c0 =>
  rbind (py_getitem c0 "content") (fun ct =>
  rbind (py_getitem ct "parts") (fun ps =>
  rbind (py_getitem0 ps) (fun p0 =>
  rbind (py_getitem p0 "text") (fun model_output_text =>
  loads model_output_text)))))))).

(** Lines 148-154: the call and the two decodings. *)
Definition call_model (contents : list content) : M json :=
  let* response := post_gemini contents in
  lift (read_model_output response).

Definition agent_turn (agent_reply_text : json) : json :=
  JObj [("sender", JStr "agent"); ("text", agent_reply_text); ("timestamp", JStr "N/A")].

(** Lines 156-190: the turn once the model output is decoded. *)
Definition finish_turn
    (session_id incoming_message : json) (conversation_history : listvar)
    (model_output : json) : M (json * Z) :=
  let* agent_reply_text := lift (py_get model_output "agentResponseText" JNull) in
  let* is_over := lift (py_get model_output "isConversationOver" (JBool false)) in
  let* intelligence := lift (py_get model_output "extractedIntelligence" (JObj [])) in
  let* agent_notes := lift (py_get model_output "agentNotes" (JStr EmptyString)) in
  (* 5. Manage Session and History *)
  let* conversation_history := append conversation_history incoming_message in
  let* conversation_history := append conversation_history (agent_turn agent_reply_text) in
  let* k := lift (key_of session_id) in
  let* _ := modify_store (insert k (Session (value conversation_history) intelligence agent_notes)) in
  (* 6. Handle Final Report Callback *)
  let* _ :=
    if truthy is_over then
      let* total_messages := lift (py_len (value conversation_history)) in
      let* _ := send_final_report session_id total_messages intelligence agent_notes in
      let* store := get_store in
      match store !! k with
      | Some _ => modify_store (delete k)
      | None => ret tt
      end
    else ret tt in
  (* 7. Return Agent's Response to the Platform *)
  ret (success_response agent_reply_text is_over session_id intelligence agent_notes).

(** The body of the [try] block, lines 147-190. *)
Definition try_body
    (session_id incoming_message : json) (conversation_history : listvar)
    (contents : list content) : M (json * Z) :=
  (* 4. Call Gemini REST API *)
  let* model_output := call_model contents in
  finish_turn session_id incoming_message conversation_history model_output.

(** The handler of [except requests.exceptions.HTTPError], lines 192-210.
    Its inner [try] catches [json.JSONDecodeError] only.  [error_message] is
    kept as the pieces of its f-string: it is printed at line 209 and
    rendered into the response at line 210. *)
Definition except_HTTPError (response : http_response) : M (json * Z) :=
  let* _ := py_print [Text "HTTP error occurred: "; Text (exn_text (HTTPError response))] in
  let* error_message :=
    try_except
      (let* error_details := lift (response_json response) in
       let* structured :=
         lift (rbind (py_in "error" error_details) (fun has_error =>
               if has_error
               then rbind (py_getitem error_details "error") (fun err => py_in "message" err)
               else Ok false)) in
       if (structured : bool) then
         let* detail :=
           lift (rbind (py_getitem error_details "error") (fun err => py_getitem err "message")) in
         ret [Text "AI Service Error: "; Value (py_str detail)]
       else
         ret [Text "AI Service Error (unstructured): "; Value (text response)])
      (fun e =>
         match e with
         | JSONDecodeError =>
             Some (ret [Text "AI Service Error (non-JSON): "; Value (text response)])
         | _ => None
         end) in
  let* _ := py_print error_message in
  ret (error_response (render error_message) 502).

(** The two [except] clauses of the outer [try], lines 192 and 211, tried in
    that order; [except Exception] takes whatever the first does not and
    prints the session id before it answers. *)
Definition except_clauses (session_id : json) (e : exn) : option (M (json * Z)) :=
  match e with
  | HTTPError response => Some (except_HTTPError response)
  | _ =>
      Some (let* _ := py_print [Text "Error processing session "; Value (py_str session_id);
                                Text ": "; Text (exn_text e)] in
            ret (error_response "Internal server error" 500))
  end.

(** [handle_honeypot_request].  [Ok (body, status)] is the pair the function
    returns; [Raise e] is an exception that leaves the function. *)
Definition handle_honeypot_request (req : request) : M (json * Z) :=
  (* 1. Authentication *)
  let api_key := x_api_key req in
  if unauthorized api_key then ret (error_response "Unauthorized" 401)
  else
  (* 2. Input Validation *)
  let data := get_json req in
  let* invalid := lift (invalid_body data) in
  if (invalid : bool) then ret (error_response "Invalid request body" 400)
  else
  let* session_id := lift (py_getitem data "sessionId") in
  let* incoming_message := lift (py_getitem data "message") in
  let* conversation_history := resolve_history data session_id in
  (* 3. Construct Prompt for Gemini REST API *)
  let* contents := lift (build_contents (value conversation_history) incoming_message) in
  try_except
    (try_body session_id incoming_message conversation_history contents)
    (except_clauses session_id).

End Program.

(** ** Start-up, lines 13-24

    The module reads its two secrets from the process environment when it is
    imported and refuses to start without them: [if not KEY: raise
    ValueError(...)], where [not] holds of [None] and of the empty string.
    [getenv] is the environment as [os.getenv] sees it once [load_dotenv()]
    has run. *)

Record config : Type := Config {
  cfg_GEMINI_API_KEY : string;
  cfg_YOUR_API_KEY : string
}.

Inductive startup_result : Type :=
| ValueError (message : string)
| Started (c : config).

Definition startup (getenv : string -> option string) : startup_result :=
  match getenv "GEMINI_API_KEY" with
  | None => ValueError "GEMINI_API_KEY not found. Please set it in your .env file."
  | Some g =>
      if String.eqb g EmptyString
      then ValueError "GEMINI_API_KEY not found. Please set it in your .env file."
      else
        match getenv "YOUR_SECRET_API_KEY" with
        | None => ValueError "YOUR_SECRET_API_KEY not found. Please set it in your .env file."
        | Some y =>
            if String.eqb y EmptyString
            then ValueError "YOUR_SECRET_API_KEY not found. Please set it in your .env file."
            else Started (Config g y)
        end
  end.

(** ** A concrete runtime for closed examples

    The program is parametric in the JSON decoder and in [str].  Closed
    examples need instances: JSON texts are produced by the serializer
    [dumps], and the decoder [loads_of vs] decodes exactly the
    serializations of the values in [vs] and rejects every other text. *)

Definition dquote : string := String "034"%char EmptyString.
Definition backslash : string := String "092"%char EmptyString.

Definition escape_char (c : ascii) : string :=
  if (Ascii.eqb c "034" || Ascii.eqb c "092")%char
  then String "092"%char (String c EmptyString)
  else String c EmptyString.

Fixpoint escape (s : string) : string :=
  match s with
  | EmptyString => EmptyString
  | String c rest => escape_char c +:+ escape rest
  end.

Fixpoint join (sep : string) (l : list string) : string :=
  match l with
  | [] => EmptyString
  | [x] => x
  | x :: rest => x +:+ sep +:+ join sep rest
  end.

(** [json.dumps] with compact separators, for strings of printable ASCII. *)
Fixpoint dumps (v : json) : string :=
  match v with
  | JNull => "null"
  | JBool true => "true"
  | JBool false => "false"
  | JNum n => decimal n
  | JStr s => dquote +:+ escape s +:+ dquote
  | JArr items => "[" +:+ join "," (map dumps items) +:+ "]"
  | JObj fields =>
      "{" +:+ join "," (map (fun kv => match kv with
                                       | (k, x) => dquote +:+ escape k +:+ dquote +:+ ":" +:+ dumps x
                                       end) fields) +:+ "}"
  end.

Definition loads_of (vs : list json) (s : string) : option json :=
  List.find (fun v => String.eqb (dumps v) s) vs.

(** [repr] and [str] for values whose strings hold no quote, backslash or
    control character. *)
Fixpoint py_repr (v : json) : string :=
  match v with
  | JNull => "None"
  | JBool true => "True"
  | JBool false => "False"
  | JNum n => decimal n
  | JStr s => "'" +:+ s +:+ "'"
  | JArr items => "[" +:+ join ", " (map py_repr items) +:+ "]"
  | JObj fields =>
      "{" +:+ join ", " (map (fun kv => match kv with
                                        | (k, x) => "'" +:+ k +:+ "': " +:+ py_repr x
                                        end) fields) +:+ "}"
  end.

Definition str_of (v : json) : string :=
  match v with
  | JStr s => s
  | _ => py_repr v
  end.

(** A log encoded in UTF-8 accepts every text but one with a surrogate:
    the byte [ED] followed by a byte from [A0] on. *)
Fixpoint has_surrogate (s : string) : bool :=
  match s with
  | String c (String d _ as rest) =>
      (Ascii.eqb c "237" && (160 <=? nat_of_ascii d)%nat) || has_surrogate rest
  | _ => false
  end.

Definition utf8_printable (s : string) : bool := negb (has_surrogate s).

(** The lone high surrogate [U+D83D], the value the JSON escape for it
    decodes to. *)
Definition lone_surrogate : string :=
  String "237" (String "160" (String "189" EmptyString)).

(** The envelope the model service answers with:
    [{"candidates": [{"content": {"parts": [{"text": t}]}}]}]. *)
Definition envelope (t : json) : json :=
  JObj [("candidates",
         JArr [JObj [("content", JObj [("parts", JArr [JObj [("text", t)]])])]])].

(** A well-formed answer of the model service carrying [model_output]. *)
Definition model_reply (model_output : json) : http_response :=
  HttpResponse 200 (dumps (envelope (JStr (dumps model_output)))).

(** ** Observations used in the statements

    What follows names what the theorems talk about: the world after a
    call, the decoded model result, the history a session has in store, the
    exchanges a run of turns should have appended. *)

(** The world once the model has been called with [contents]. *)
Definition called (contents : list content) (w : world) : world :=
  World (session_store w) (calls w ++ [GeminiCalled contents]).

(** The world once a report with [payload] has been posted. *)
Definition reported (payload : json) (w : world) : world :=
  World (session_store w) (calls w ++ [ReportSent payload]).

(** The store after a completed turn: the entry written at line 169, removed
    again at line 180 when the turn is terminal. *)
Definition turn_store (terminal : bool) (k : pykey) (entry : session)
    (store : gmap pykey session) : gmap pykey session :=
  if terminal then delete k store else <[k := entry]> store.

(** What lines 148-154 yield for an answer of [requests.post]. *)
Definition model_result (json_loads : string -> option json) (p : post_result) : result json :=
  match p with
  | PostRaises => Raise RequestException
  | PostReturns r => read_model_output json_loads r
  end.

Definition internal_error : json * Z := error_response "Internal server error" 500.

Definition is_HTTPError (e : exn) : bool :=
  match e with HTTPError _ => true | _ => false end.

(** The history held for key [k], the empty list when there is none: what
    lines 113-115 resolve for a request that brings no history. *)
Definition stored_history (w : world) (k : pykey) : json :=
  match session_store w !! k with
  | Some s => history s
  | None => JArr []
  end.

Definition message_of (req : request) : json :=
  match py_getitem (get_json req) "message" with
  | Ok m => m
  | Raise _ => JNull
  end.

Definition response_field (name : string) (r : result (json * Z)) : option json :=
  match r with
  | Ok (JObj fields, _) => dict_get name fields
  | _ => None
  end.


(** The Turn a reply of the agent is to be recorded as: its sender is
    [agent], its text the reply, its timestamp the placeholder [N/A]. *)
Definition agent_entry (reply : json) : json :=
  JObj [("sender", JStr "agent"); ("text", reply); ("timestamp", JStr "N/A")].


(** A failed turn: an exception leaves the handler, or it returns the error
    body with a status other than 200. *)
Definition failure_response (r : result (json * Z)) : Prop :=
  match r with
  | Raise _ => True
  | Ok resp => exists msg status, resp = error_response msg status /\ status <> 200
  end.

Definition or_default (default : json) (o : option json) : json :=
  match o with
  | Some x => x
  | None => default
  end.

(** A model output with each of the four fields filled in, a missing one by
    the default its [.get] names at lines 156-159. *)
Definition with_defaults (fields : list (string * json)) : json :=
  JObj [("agentResponseText", or_default JNull (dict_get "agentResponseText" fields));
        ("isConversationOver", or_default (JBool false) (dict_get "isConversationOver" fields));
        ("extractedIntelligence", or_default (JObj []) (dict_get "extractedIntelligence" fields));
        ("agentNotes", or_default (JStr EmptyString) (dict_get "agentNotes" fields))].




(** The artifacts held in store for key [k] under one category. *)
Definition artifacts (category : string) (w : world) (k : pykey) : list json :=
  match session_store w !! k with
  | Some s =>
      match py_get (intelligence s) category (JArr []) with
      | Ok (JArr items) => items
      | _ => []
      end
  | None => []
  end.

(** ** Scenarios for the closed examples *)

Definition secret : string := "secret".

Definition hello : json := JObj [("sender", JStr "scammer"); ("text", JStr "hello")].

Definition pay_now : json := JObj [("sender", JStr "scammer"); ("text", JStr "pay now")].

Definition turn_request (session_id message : json) : request :=
  Request (Some secret) (JObj [("sessionId", session_id); ("message", message)]).

Definition mo_upi : json :=
  JObj [("agentResponseText", JStr "hi, who is this?");
        ("isConversationOver", JBool false);
        ("extractedIntelligence", JObj [("upiIds", JArr [JStr "test@upi"])]);
        ("agentNotes", JStr "asked who is calling")].

Definition mo_plain : json :=
  JObj [("agentResponseText", JStr "why do you need that?");
        ("isConversationOver", JBool false);
        ("extractedIntelligence", JObj []);
        ("agentNotes", JStr "stalling")].

Definition mo_final : json :=
  JObj [("agentResponseText", JStr "goodbye");
        ("isConversationOver", JBool true);
        ("extractedIntelligence", JObj [("phoneNumbers", JArr [JStr "5550100"])]);
        ("agentNotes", JStr "scammer gave up")].

Definition mo_empty : json := JObj [].

Definition decoder : string -> option json :=
  loads_of [mo_upi; envelope (JStr (dumps mo_upi));
            mo_plain; envelope (JStr (dumps mo_plain));
            mo_final; envelope (JStr (dumps mo_final));
            mo_empty; envelope (JStr (dumps mo_empty));
            with_defaults []; envelope (JStr (dumps (with_defaults [])))].

(** The model service answering [model_output] to whatever it is sent, and
    the report endpoint behaving as [report]. *)
Definition net_replying (model_output : json) (report : post_result) : network :=
  Network (fun _ => PostReturns (model_reply model_output)) (fun _ => report).

(** Both collaborators unreachable. *)
Definition net_down : network :=
  Network (fun _ => PostRaises) (fun _ => PostRaises).

Definition run (net : network) (req : request) (w : world) : result (json * Z) * world :=
  handle_honeypot_request decoder str_of utf8_printable secret net req w.

Definition empty_world : world := World ∅ [].

(** The world after one continuing turn on session [s1]. *)
Definition world_one : world :=
  snd (run (net_replying mo_upi PostRaises) (turn_request (JStr "s1") hello) empty_world).

(** The world after a second continuing turn on the same session. *)
Definition world_two : world :=
  snd (run (net_replying mo_plain PostRaises) (turn_request (JStr "s1") pay_now) world_one).

(** The two turns that lead from [empty_world] to [world_two]. *)
Definition two_turns : list (network * request) :=
  [(net_replying mo_upi PostRaises, turn_request (JStr "s1") hello);
   (net_replying mo_plain PostRaises, turn_request (JStr "s1") pay_now)].


(** A report endpoint that answers 500. *)
Definition guvi_broken : json -> post_result :=
  fun _ => PostReturns (HttpResponse 500 "broken").

(** The transcript sent to the model on the second and third turn of [s1]. *)
Definition contents_two : list content :=
  [Content "user" (JStr "hello"); Content "model" (JStr "hi, who is this?");
   Content "user" (JStr "pay now")].

(** The entry of the transcript a history message becomes at lines 133-134:
    role [user] when its [sender] is the string [scammer], role [model]
    otherwise; its [text], or the empty string when it has none. *)
Definition content_of (fields : list (string * json)) : content :=
  Content (if is_str "scammer" (or_default JNull (dict_get "sender" fields))
           then "user" else "model")
          (or_default (JStr EmptyString) (dict_get "text" fields)).

(** Every stored history is a list whose last two entries are a message and
    the agent turn answering it. *)
Definition histories_end_with_agent (store : gmap pykey session) : Prop :=
  forall k s, store !! k = Some s ->
    exists l msg reply, history s = JArr (l ++ [msg; agent_turn reply]).

(** A value that is neither a list, an object nor a string: [in] raises on it. *)
Definition is_scalar (v : json) : bool :=
  match v with
  | JNull | JBool _ | JNum _ => true
  | _ => false
  end.

(** An environment with both secrets set. *)
Definition env_ok (name : string) : option string :=
  if String.eqb name "GEMINI_API_KEY" then Some "g-key"
  else if String.eqb name "YOUR_SECRET_API_KEY" then Some secret
  else None.

(** The model service answering 400 with Google's error document. *)
Definition quota_error : json :=
  JObj [("error", JObj [("code", JNum 400); ("message", JStr "API key not valid")])].

Definition net_rejecting : network :=
  Network (fun _ => PostReturns (HttpResponse 400 (dumps quota_error))) (fun _ => PostRaises).

(** The model service answering 500 with the JSON text [5]. *)
Definition net_garbled : network :=
  Network (fun _ => PostReturns (HttpResponse 500 "5")) (fun _ => PostRaises).

Definition decoder_errors : string -> option json :=
  loads_of [quota_error; JNum 5].

(** A request for session [s1] that brings its own one-entry history. *)
Definition stateless_request : request :=
  Request (Some secret)
    (JObj [("sessionId", JStr "s1"); ("message", pay_now);
           ("conversationHistory", JArr [hello])]).

(** The terminal turn of session [s1] and the request of its later turns. *)
Definition terminal_net : network := net_replying mo_final PostRaises.

Definition second_request : request := turn_request (JStr "s1") pay_now.

(** A first message of the session whose id is the lone surrogate. *)
Definition surrogate_request : request := turn_request (JStr lone_surrogate) hello.

(** A computation that neither reads nor changes the world. *)
Definition stateless {A : Type} (c : M A) : Prop :=
  exists x, forall w, c w = (x, w).

(** ** Verification *)

Section Verification.

Context (json_loads : string -> option json) (py_str : json -> string)
        (printable : string -> bool) (YOUR_API_KEY : string).

Abbreviation handle := (handle_honeypot_request json_loads py_str printable YOUR_API_KEY).

(** What the part of the handler before its [try] establishes when it gets
    through: the request is authorised and valid, [sid] and [msg] are its
    session id and message, [ch] the resolved history and [contents] the
    transcript sent to the model. *)
Record prelude (req : request) (w : world)
    (sid msg : json) (ch : listvar) (contents : list content) : Prop := Prelude {
  pre_auth : unauthorized YOUR_API_KEY (x_api_key req) = false;
  pre_valid : invalid_body (get_json req) = Ok false;
  pre_sid : py_getitem (get_json req) "sessionId" = Ok sid;
  pre_msg : py_getitem (get_json req) "message" = Ok msg;
  pre_hist : resolve_history (get_json req) sid w = (Ok ch, w);
  pre_contents : build_contents (value ch) msg = Ok contents
}.

(** What the [except Exception] clause of lines 211-213 ends in: status 500
    once line 212 has printed the session id, the exception of [print] when
    the session id cannot be printed. *)
Definition logged_500 (sid : json) : result (json * Z) :=
  if printable (py_str sid) then Ok internal_error else Raise UnicodeEncodeError.

(** What [send_final_report] ends in for session [sid], by what the report
    endpoint does with [payload]: it returns when each line it prints can be
    printed, the session id at lines 89 and 93 and the response text at
    line 91 when the status is not 200. *)
Definition report_result (net : network) (sid payload : json) : result unit :=
  match guvi net payload with
  | PostRaises =>
      if printable (py_str sid) then Ok tt else Raise UnicodeEncodeError
  | PostReturns response =>
      if printable (py_str sid) &&
         ((status_code response =? 200)%Z || printable (text response))
      then Ok tt
      else Raise UnicodeEncodeError
  end.

(** The pieces of [error_message], lines 196-207, or the exception that
    leaves the inner [try]. *)
Definition error_message_of (response : http_response) : result (list piece) :=
  match
    rbind (response_json json_loads response) (fun error_details =>
    rbind (rbind (py_in "error" error_details) (fun has_error =>
           if has_error
           then rbind (py_getitem error_details "error")
                      (fun err => py_in "message" err)
           else Ok false)) (fun structured : bool =>
    if structured
    then rbind (rbind (py_getitem error_details "error")
                      (fun err => py_getitem err "message"))
               (fun detail => Ok [Text "AI Service Error: "; Value (py_str detail)])
    else Ok [Text "AI Service Error (unstructured): "; Value (text response)]))
  with
  | Raise JSONDecodeError =>
      Ok [Text "AI Service Error (non-JSON): "; Value (text response)]
  | x => x
  end.

(** The text of [error_message] can be printed. *)
Definition printable_pieces (f : list piece) : bool :=
  forallb (fun p => match p with
                    | Text _ => true
                    | Value s => printable s
                    end) f.

(** The outcomes of one run of the handler: the response (or the exception
    that leaves it) and the world it ends in. *)
Inductive turn (net : network) (req : request) (w : world) :
    result (json * Z) -> world -> Prop :=
| turn_unauthorized :
    unauthorized YOUR_API_KEY (x_api_key req) = true ->
    turn net req w (Ok (error_response "Unauthorized" 401)) w
| turn_invalid :
    unauthorized YOUR_API_KEY (x_api_key req) = false ->
    invalid_body (get_json req) = Ok true ->
    turn net req w (Ok (error_response "Invalid request body" 400)) w
| turn_crashed e :
    unauthorized YOUR_API_KEY (x_api_key req) = false ->
    turn net req w (Raise e) w
| turn_gateway_failed sid msg ch contents e r :
    prelude req w sid msg ch contents ->
    model_result json_loads (gemini net contents) = Raise e ->
    (r, called contents w) =
      match e with
      | HTTPError resp =>
          except_HTTPError json_loads py_str printable resp (called contents w)
      | _ => (logged_500 sid, called contents w)
      end ->
    turn net req w r (called contents w)
| turn_finish_failed sid msg ch contents mo e :
    prelude req w sid msg ch contents ->
    model_result json_loads (gemini net contents) = Ok mo ->
    finish_turn py_str printable net sid msg ch mo (called contents w)
      = (Raise e, called contents w) ->
    turn net req w (logged_500 sid) (called contents w)
| turn_completed sid msg ch contents mo reply over intel notes l k :
    prelude req w sid msg ch contents ->
    model_result json_loads (gemini net contents) = Ok mo ->
    py_get mo "agentResponseText" JNull = Ok reply ->
    py_get mo "isConversationOver" (JBool false) = Ok over ->
    py_get mo "extractedIntelligence" (JObj []) = Ok intel ->
    py_get mo "agentNotes" (JStr EmptyString) = Ok notes ->
    value ch = JArr l ->
    key_of sid = Ok k ->
    let hist := (l ++ [msg]) ++ [agent_turn reply] in
    (truthy over = true ->
     report_result net sid
       (report_payload sid (Z.of_nat (List.length hist)) intel notes) = Ok tt) ->
    turn net req w (Ok (success_response reply over sid intel notes))
      (World (turn_store (truthy over) k (Session (JArr hist) intel notes) (session_store w))
             (if truthy over
              then calls w ++ [GeminiCalled contents;
                     ReportSent (report_payload sid (Z.of_nat (List.length hist)) intel notes)]
              else calls w ++ [GeminiCalled contents]))
| turn_report_failed sid msg ch contents mo reply over intel notes l k e :
    prelude req w sid msg ch contents ->
    model_result json_loads (gemini net contents) = Ok mo ->
    py_get mo "agentResponseText" JNull = Ok reply ->
    py_get mo "isConversationOver" (JBool false) = Ok over ->
    py_get mo "extractedIntelligence" (JObj []) = Ok intel ->
    py_get mo "agentNotes" (JStr EmptyString) = Ok notes ->
    value ch = JArr l ->
    key_of sid = Ok k ->
    truthy over = true ->
    let hist := (l ++ [msg]) ++ [agent_turn reply] in
    report_result net sid
      (report_payload sid (Z.of_nat (List.length hist)) intel notes) = Raise e ->
    turn net req w (logged_500 sid)
      (World (<[k := Session (JArr hist) intel notes]> (session_store w))
             (calls w ++ [GeminiCalled contents;
                ReportSent (report_payload sid (Z.of_nat (List.length hist)) intel notes)])).

(** The model call fails: lines 148-154 raise.  [requests.post] raising, a
    4xx or 5xx status, a response text that is not JSON, an envelope without
    [candidates[0].content.parts[0].text] and an embedded text that is not
    JSON are the ways it can. *)
Definition gateway_fails (p : post_result) : Prop :=
  exists e, model_result json_loads p = Raise e.

(** Turns served one after the other, each with its own collaborators. *)
Fixpoint run_turns (turns : list (network * request)) (w : world)
    : list (result (json * Z)) * world :=
  match turns with
  | [] => ([], w)
  | (net, req) :: rest =>
      let (r, w1) := handle net req w in
      let (rs, w2) := run_turns rest w1 in
      (r :: rs, w2)
  end.




Ltac unfold_m := cbv [bind ret lift raise get_store modify_store emit try_except] in *.

Lemma send_final_report_eq net sid n i a w :
  send_final_report py_str printable net sid n i a w =
  (report_result net sid (report_payload sid n i a),
   reported (report_payload sid n i a) w).
Proof.
  unfold send_final_report, post_guvi, py_print, report_result, reported. unfold_m.
  cbn [forallb]. rewrite !andb_true_r.
  destruct (guvi net _) as [|response]; cbn [is_RequestException].
  - by destruct (printable (py_str sid)).
  - destruct (printable (py_str sid)); cbn [andb negb]; [|reflexivity].
    destruct (status_code response =? 200)%Z; cbn [negb orb forallb]; [reflexivity|].
    rewrite ?andb_true_r. by destruct (printable (text response)).
Qed.

Lemma report_result_raises net sid payload e :
  report_result net sid payload = Raise e -> e = UnicodeEncodeError.
Proof.
  unfold report_result. repeat case_match; congruence.
Qed.

Lemma report_result_printable net sid payload :
  printable (py_str sid) = true ->
  (forall response, guvi net payload = PostReturns response ->
     status_code response = 200%Z \/ printable (text response) = true) ->
  report_result net sid payload = Ok tt.
Proof.
  intros Hs Hr. unfold report_result. rewrite Hs.
  destruct (guvi net payload) as [|response]; [reflexivity|].
  destruct (Hr response eq_refl) as [->| ->]; cbn; [reflexivity|].
  by rewrite orb_true_r.
Qed.

Lemma call_model_eq net contents w :
  call_model json_loads net contents w =
  (match gemini net contents with
   | PostRaises => Raise RequestException
   | PostReturns r => read_model_output json_loads r
   end, called contents w).
Proof.
  unfold call_model, post_gemini, called. unfold_m. cbn.
  destruct (gemini net contents); reflexivity.
Qed.

Lemma except_HTTPError_eq r w :
  except_HTTPError json_loads py_str printable r w =
  (match error_message_of r with
   | Ok f => if printable_pieces f
             then Ok (error_response (render f) 502)
             else Raise UnicodeEncodeError
   | Raise e => Raise e
   end, w).
Proof.
  unfold except_HTTPError, error_message_of, py_print, printable_pieces. unfold_m.
  cbn [forallb andb].
  destruct (response_json json_loads r) as [d|e]; cbn [rbind].
  - destruct (rbind (py_in "error" d) _) as [[]|e]; cbn [rbind].
    + destruct (rbind (py_getitem d "error") _) as [m|e]; cbn [rbind].
      * by destruct (forallb _ _).
      * destruct e; try reflexivity. by destruct (forallb _ _).
    + by destruct (forallb _ _).
    + destruct e; try reflexivity. by destruct (forallb _ _).
  - destruct e; try reflexivity. by destruct (forallb _ _).
Qed.

Lemma except_HTTPError_pure r w :
  exists x, except_HTTPError json_loads py_str printable r w = (x, w) /\
    match x with
    | Ok resp => exists msg, resp = error_response msg 502
    | Raise e => True
    end.
Proof.
  rewrite except_HTTPError_eq. eexists. split; [reflexivity|].
  repeat case_match; simplify_eq; eauto.
Qed.

Lemma resolve_history_pure data sid w x w' :
  resolve_history data sid w = (x, w') -> w' = w.
Proof.
  unfold resolve_history. unfold_m.
  destruct (py_get data _ _) as [c|e]; [|congruence].
  destruct (truthy c); [congruence|].
  destruct (key_of sid) as [k|e]; [|congruence].
  cbn. destruct (session_store w !! k); congruence.
Qed.

Lemma resolve_history_inv data sid w ch w' :
  resolve_history data sid w = (Ok ch, w') ->
  w' = w /\
  exists supplied,
    py_get data "conversationHistory" (JArr []) = Ok supplied /\
    ((truthy supplied = true /\ ch = ListVar None supplied) \/
     (truthy supplied = false /\
      exists k, key_of sid = Ok k /\
        match session_store w !! k with
        | Some s => ch = ListVar (Some k) (history s)
        | None => ch = ListVar None supplied
        end)).
Proof.
  unfold resolve_history. unfold_m.
  destruct (py_get data _ _) as [c|e]; [|congruence].
  destruct (truthy c) eqn:Ht.
  - intros [= <- <-]. eauto 10.
  - destruct (key_of sid) as [k|e]; [|congruence]. cbn.
    destruct (session_store w !! k) eqn:Hk; intros [= <- <-].
    all: split; [reflexivity|]; exists c; split; [reflexivity|].
    all: right; split; [assumption|]; exists k; split; [reflexivity|].
    all: rewrite Hk; reflexivity.
Qed.

Lemma insert_alter2 (f g : session -> session) k x (m : gmap pykey session) :
  <[k := x]> (alter g k (alter f k m)) = <[k := x]> m.
Proof.
  apply map_eq. intros i. destruct (decide (k = i)) as [->|Hne].
  - by rewrite !lookup_insert_eq.
  - by rewrite !lookup_insert_ne, !lookup_alter_ne.
Qed.

Lemma finish_turn_eq net sid msg ch mo w reply over intel notes l k :
  py_get mo "agentResponseText" JNull = Ok reply ->
  py_get mo "isConversationOver" (JBool false) = Ok over ->
  py_get mo "extractedIntelligence" (JObj []) = Ok intel ->
  py_get mo "agentNotes" (JStr EmptyString) = Ok notes ->
  value ch = JArr l ->
  key_of sid = Ok k ->
  (shared_with ch = None \/ shared_with ch = Some k) ->
  let hist := (l ++ [msg]) ++ [agent_turn reply] in
  let entry := Session (JArr hist) intel notes in
  let payload := report_payload sid (Z.of_nat (List.length hist)) intel notes in
  finish_turn py_str printable net sid msg ch mo w =
  if truthy over then
    match report_result net sid payload with
    | Ok _ => (Ok (success_response reply over sid intel notes),
               World (delete k (session_store w)) (calls w ++ [ReportSent payload]))
    | Raise e => (Raise e,
                  World (<[k := entry]> (session_store w)) (calls w ++ [ReportSent payload]))
    end
  else (Ok (success_response reply over sid intel notes),
        World (<[k := entry]> (session_store w)) (calls w)).
Proof.
  intros Hr Ho Hi Hn Hv Hk Hs hist entry payload.
  unfold finish_turn, append. unfold_m.
  rewrite Hr, Ho, Hi, Hn, Hv. cbn [py_append value shared_with]. rewrite Hk.
  destruct Hs as [Hs|Hs]; rewrite Hs;
    cbn [py_append value shared_with py_len session_store calls];
    (destruct (truthy over) eqn:Hover;
     cbn [py_append value shared_with py_len session_store calls];
     [ rewrite send_final_report_eq; unfold reported;
       cbn [py_append value shared_with py_len session_store calls];
       fold hist; fold payload;
       destruct (report_result net sid payload) as [[]|e];
       cbn [py_append value shared_with py_len session_store calls];
       try rewrite lookup_insert_eq;
       cbn [py_append value shared_with py_len session_store calls]
     | ]).
  all: try rewrite insert_alter2; try rewrite delete_insert_eq; try reflexivity.
Qed.

Lemma finish_turn_cases sid msg ch mo w :
  (forall k0, shared_with ch = Some k0 -> key_of sid = Ok k0) ->
  (exists reply over intel notes l k,
      py_get mo "agentResponseText" JNull = Ok reply /\
      py_get mo "isConversationOver" (JBool false) = Ok over /\
      py_get mo "extractedIntelligence" (JObj []) = Ok intel /\
      py_get mo "agentNotes" (JStr EmptyString) = Ok notes /\
      value ch = JArr l /\ key_of sid = Ok k /\
      (shared_with ch = None \/ shared_with ch = Some k))
  \/ (exists e, is_HTTPError e = false /\
        forall net, finish_turn py_str printable net sid msg ch mo w = (Raise e, w)).
Proof.
  intros Hshared.
  destruct mo as [| | | | |fields];
    try (right; exists AttributeError; split; reflexivity).
  destruct (value ch) as [| | | |l|] eqn:Hv;
    try (right; exists AttributeError; split; [reflexivity|]; intros net;
         unfold finish_turn, append; unfold_m; cbn [py_get]; rewrite Hv; reflexivity).
  destruct (key_of sid) as [k|e] eqn:Hk.
  - left. do 6 eexists. repeat split; try reflexivity.
    destruct (shared_with ch) as [k0|] eqn:Hs; [|by left].
    right. specialize (Hshared k0 eq_refl). congruence.
  - right. exists e. destruct (shared_with ch) as [k0|] eqn:Hs.
    { specialize (Hshared k0 eq_refl). congruence. }
    split.
    + destruct sid; cbn in Hk; by inversion Hk.
    + intros net. unfold finish_turn, append; unfold_m; cbn [py_get]; rewrite Hv, Hs.
      cbn [py_append value shared_with]. rewrite Hk. by destruct w.
Qed.

Lemma try_body_eq net sid msg ch contents w :
  try_body json_loads py_str printable net sid msg ch contents w =
  match model_result json_loads (gemini net contents) with
  | Ok mo => finish_turn py_str printable net sid msg ch mo (called contents w)
  | Raise e => (Raise e, called contents w)
  end.
Proof.
  unfold try_body, bind. rewrite call_model_eq. reflexivity.
Qed.

Lemma except_clauses_eq sid e w :
  exists h, except_clauses json_loads py_str printable sid e = Some h /\
    h w = match e with
          | HTTPError r => except_HTTPError json_loads py_str printable r w
          | _ => (logged_500 sid, w)
          end.
Proof.
  unfold logged_500.
  destruct e; eexists; (split; [reflexivity|]); try reflexivity.
  all: unfold py_print; unfold_m; cbn [forallb andb]; rewrite andb_true_r.
  all: by destruct (printable (py_str sid)).
Qed.

Lemma resolve_history_shared data sid w ch :
  resolve_history data sid w = (Ok ch, w) ->
  forall k0, shared_with ch = Some k0 -> key_of sid = Ok k0.
Proof.
  intros H k0 Hs. apply resolve_history_inv in H as (_ & c & _ & [[_ ->]|(_ & k & Hk & Hl)]).
  - discriminate.
  - destruct (session_store w !! k); subst ch; cbn in Hs; congruence.
Qed.

Lemma handle_turn net req w r w' :
  handle net req w = (r, w') -> turn net req w r w'.
Proof.
  unfold handle_honeypot_request.
  destruct (unauthorized YOUR_API_KEY (x_api_key req)) eqn:Hauth.
  { intros [= <- <-]. by apply turn_unauthorized. }
  cbv [bind lift ret].
  destruct (invalid_body (get_json req)) as [[]|e] eqn:Hinv.
  { intros [= <- <-]. by apply turn_invalid. }
  2: { intros [= <- <-]. by apply turn_crashed. }
  destruct (py_getitem (get_json req) "sessionId") as [sid|e] eqn:Hsid.
  2: { intros [= <- <-]. by apply turn_crashed. }
  destruct (py_getitem (get_json req) "message") as [msg|e] eqn:Hmsg.
  2: { intros [= <- <-]. by apply turn_crashed. }
  destruct (resolve_history (get_json req) sid w) as [[ch|e] w0] eqn:Hres.
  2: { apply resolve_history_pure in Hres as ->. intros [= <- <-]. by apply turn_crashed. }
  pose proof (resolve_history_pure _ _ _ _ _ Hres) as ->.
  destruct (build_contents (value ch) msg) as [contents|e] eqn:Hc.
  2: { intros [= <- <-]. by apply turn_crashed. }
  assert (Hpre : prelude req w sid msg ch contents) by (by constructor).
  unfold try_except. rewrite try_body_eq.
  destruct (model_result json_loads (gemini net contents)) as [mo|e] eqn:Hmo.
  - destruct (finish_turn_cases sid msg ch mo (called contents w)
                (resolve_history_shared _ _ _ _ Hres))
      as [(reply & over & intel & notes & l & k & Hr & Ho & Hi & Hn & Hv & Hk & Hs)
         |(e & Hne & He)].
    + rewrite (finish_turn_eq net sid msg ch mo _ reply over intel notes l k) by assumption.
      cbn [called calls session_store]. rewrite <- (app_assoc (calls w)). cbn [app].
      destruct (truthy over) eqn:Hover.
      * destruct (report_result net sid _) as [[]|e] eqn:Hrep.
        -- intros [= <- <-].
           pose proof (turn_completed net req w sid msg ch contents mo reply over
                         intel notes l k Hpre Hmo Hr Ho Hi Hn Hv Hk) as T.
           cbn zeta in T. rewrite Hover in T. apply T. intros _. exact Hrep.
        -- pose proof (report_result_raises _ _ _ _ Hrep) as ->.
           destruct (except_clauses_eq sid UnicodeEncodeError
                       (World (<[k := Session (JArr ((l ++ [msg]) ++ [agent_turn reply]))
                                        intel notes]> (session_store w))
                              (calls w ++ [GeminiCalled contents;
                                 ReportSent (report_payload sid
                                   (Z.of_nat (List.length ((l ++ [msg]) ++ [agent_turn reply])))
                                   intel notes)])))
             as (h & -> & ->).
           intros [= <- <-].
           eapply turn_report_failed; eassumption.
      * intros [= <- <-].
        pose proof (turn_completed net req w sid msg ch contents mo reply over
                      intel notes l k Hpre Hmo Hr Ho Hi Hn Hv Hk) as T.
        cbn zeta in T. rewrite Hover in T. apply T. intros [=].
    + rewrite He. destruct (except_clauses_eq sid e (called contents w)) as (h & -> & ->).
      destruct e; try discriminate; intros [= <- <-]; eapply turn_finish_failed; eauto.
  - destruct (except_clauses_eq sid e (called contents w)) as (h & -> & Hh).
    rewrite Hh. intros Heq.
    assert (w' = called contents w) as ->.
    { destruct e; try (by injection Heq).
      destruct (except_HTTPError_pure r0 (called contents w)) as (x & Hx & _).
      congruence. }
    eapply turn_gateway_failed; [eassumption..|]. by rewrite Heq.
Qed.




Lemma app_cons_not_nil {A} (l : list A) x r : l = l ++ x :: r -> False.
Proof.
  intros H. apply (f_equal List.length) in H. rewrite length_app in H. cbn in H. lia.
Qed.

Lemma turn_called net req w r w' c rest :
  turn net req w r w' ->
  calls w' = calls w ++ GeminiCalled c :: rest ->
  exists sid msg ch, prelude req w sid msg ch c.
Proof.
  intros Ht Hc. destruct Ht.
  1-3: by apply app_cons_not_nil in Hc.
  - cbn in Hc. apply app_inv_head in Hc. injection Hc as <- _. eauto.
  - cbn in Hc. apply app_inv_head in Hc. injection Hc as <- _. eauto.
  - destruct (truthy over); cbn in Hc; apply app_inv_head in Hc; injection Hc as <- _; eauto.
  - cbn in Hc. apply app_inv_head in Hc. injection Hc as <- _. eauto.
Qed.

Lemma prelude_contents req w sid msg ch c sid' msg' ch' c' :
  prelude req w sid msg ch c -> prelude req w sid' msg' ch' c' ->
  sid' = sid /\ msg' = msg /\ ch' = ch /\ c' = c.
Proof.
  intros [] []. repeat match goal with
    | H1 : ?x = _, H2 : ?x = _ |- _ => rewrite H1 in H2; simplify_eq
    end. done.
Qed.

Lemma logged_500_fails sid : failure_response (logged_500 sid).
Proof.
  unfold logged_500. destruct (printable (py_str sid)); [|exact I].
  cbn. eexists _, _. split; [reflexivity|lia].
Qed.

Lemma logged_500_inv sid x : logged_500 sid = Ok x -> x = internal_error.
Proof. unfold logged_500. destruct (printable (py_str sid)); congruence. Qed.

Lemma logged_500_not_success sid reply over sid' intel notes :
  logged_500 sid <> Ok (success_response reply over sid' intel notes).
Proof. unfold logged_500. by destruct (printable (py_str sid)). Qed.

Lemma transport_error_fails : gateway_fails PostRaises.
Proof. by exists RequestException. Qed.

Lemma unparsable_response_fails resp :
  json_loads (text resp) = None -> gateway_fails (PostReturns resp).
Proof.
  intros Hj. unfold gateway_fails, model_result, read_model_output, response_json.
  rewrite Hj. destruct (raise_for_status resp); cbn; eauto.
Qed.

Lemma unparsable_payload_fails resp s :
  json_loads (text resp) = Some (envelope (JStr s)) ->
  json_loads s = None ->
  gateway_fails (PostReturns resp).
Proof.
  intros Hj Hs. unfold gateway_fails, model_result, read_model_output, response_json.
  rewrite Hj. destruct (raise_for_status resp); cbn; [|eauto].
  rewrite Hs. eauto.
Qed.

(** C2.  Atomicity under Gateway failure.  When the call this turn makes to
    the language model fails ([gateway_fails]: the transport raises, the
    status is 4xx or 5xx, the response is not JSON, or the embedded payload
    is not JSON), the session store after the turn is the store before it,
    so that no entry is created or altered, and the turn ends in a failure:
    an error response with a status other than 200, or an exception. *)
Theorem gateway_failure_is_atomic net req w r w' c rest :
  handle net req w = (r, w') ->
  calls w' = calls w ++ GeminiCalled c :: rest ->
  gateway_fails (gemini net c) ->
  session_store w' = session_store w /\ failure_response r.
Proof.
  intros Hh Hc [e He]. apply handle_turn in Hh.
  destruct (turn_called _ _ _ _ _ _ _ Hh Hc) as (sid0 & msg0 & ch0 & Hpre0).
  destruct Hh as [ | | |sid msg ch contents e' r Hpre Hmo Hr
                  |sid msg ch contents mo e' Hpre Hmo Hf
                  |sid msg ch contents mo reply over intel notes l k Hpre Hmo
                  |sid msg ch contents mo reply over intel notes l k e' Hpre Hmo].
  1-3: by apply app_cons_not_nil in Hc.
  - split; [reflexivity|].
    destruct e'; try (injection Hr as ->; apply logged_500_fails).
    destruct (except_HTTPError_pure r0 (called contents w)) as (x & Hx & Hshape).
    rewrite Hx in Hr. injection Hr as ->.
    destruct x as [resp|]; [|exact I]. destruct Hshape as [m ->].
    cbn. eexists _, _; split; [reflexivity|lia].
  - destruct (prelude_contents _ _ _ _ _ _ _ _ _ _ Hpre0 Hpre) as (_ & _ & _ & ->).
    congruence.
  - destruct (prelude_contents _ _ _ _ _ _ _ _ _ _ Hpre0 Hpre) as (_ & _ & _ & ->).
    congruence.
  - destruct (prelude_contents _ _ _ _ _ _ _ _ _ _ Hpre0 Hpre) as (_ & _ & _ & ->).
    congruence.
Qed.


Lemma handle_success_inv net req w reply over sid intel notes w' :
  handle net req w = (Ok (success_response reply over sid intel notes), w') ->
  exists msg ch contents mo l k,
    prelude req w sid msg ch contents /\
    model_result json_loads (gemini net contents) = Ok mo /\
    py_get mo "agentResponseText" JNull = Ok reply /\
    py_get mo "isConversationOver" (JBool false) = Ok over /\
    py_get mo "extractedIntelligence" (JObj []) = Ok intel /\
    py_get mo "agentNotes" (JStr EmptyString) = Ok notes /\
    value ch = JArr l /\ key_of sid = Ok k /\
    let hist := (l ++ [msg]) ++ [agent_turn reply] in
    w' = World (turn_store (truthy over) k (Session (JArr hist) intel notes) (session_store w))
           (if truthy over
            then calls w ++ [GeminiCalled contents;
                   ReportSent (report_payload sid (Z.of_nat (List.length hist)) intel notes)]
            else calls w ++ [GeminiCalled contents]).
Proof.
  intros Hh. apply handle_turn in Hh.
  remember (Ok (success_response reply over sid intel notes)) as r eqn:Er.
  destruct Hh as [ | | |sid0 msg ch contents e' r Hpre Hmo Hr
                  |sid0 msg ch contents mo e' Hpre Hmo Hf
                  |sid0 msg ch contents mo reply0 over0 intel0 notes0 l k Hpre Hmo
                  |sid0 msg ch contents mo reply0 over0 intel0 notes0 l k e' Hpre Hmo];
    try discriminate.
  - exfalso. subst r. destruct e' as [|resp| | | | | |];
      try (injection Hr as Hr; symmetry in Hr; by apply logged_500_not_success in Hr).
    destruct (except_HTTPError_pure resp (called contents w)) as (x & Hx & Hshape).
    rewrite Hx in Hr. injection Hr as <-. by destruct Hshape.
  - by apply logged_500_not_success in Er.
  - injection Er as -> -> -> -> ->. exists msg, ch, contents, mo, l, k. auto 10.
  - by apply logged_500_not_success in Er.
Qed.

Lemma resolve_history_fresh data sid k w :
  py_get data "conversationHistory" (JArr []) = Ok (JArr []) ->
  key_of sid = Ok k ->
  session_store w !! k = None ->
  resolve_history data sid w = (Ok (ListVar None (JArr [])), w).
Proof.
  intros Hg Hk Hl. unfold resolve_history. unfold_m. rewrite Hg. cbn [truthy].
  rewrite Hk. cbn [session_store]. by rewrite Hl.
Qed.

Lemma resolve_history_stored data sid k s w :
  py_get data "conversationHistory" (JArr []) = Ok (JArr []) ->
  key_of sid = Ok k ->
  session_store w !! k = Some s ->
  resolve_history data sid w = (Ok (ListVar (Some k) (history s)), w).
Proof.
  intros Hg Hk Hl. unfold resolve_history. unfold_m. rewrite Hg. cbn [truthy].
  rewrite Hk. cbn [session_store]. by rewrite Hl.
Qed.

Lemma resolve_history_supplied data sid x l w :
  py_get data "conversationHistory" (JArr []) = Ok (JArr (x :: l)) ->
  resolve_history data sid w = (Ok (ListVar None (JArr (x :: l))), w).
Proof.
  intros Hg. unfold resolve_history. unfold_m. by rewrite Hg.
Qed.

Lemma absent_history_default data sid :
  py_getitem data "sessionId" = Ok sid ->
  py_in "conversationHistory" data = Ok false ->
  py_get data "conversationHistory" (JArr []) = Ok (JArr []).
Proof.
  destruct data as [| | | | |fields]; try discriminate. cbn.
  destruct (dict_get "conversationHistory" fields); [discriminate|reflexivity].
Qed.

Lemma terminal_turn_evicts net req w reply over sid intel notes w' k :
  handle net req w = (Ok (success_response reply over sid intel notes), w') ->
  truthy over = true ->
  key_of sid = Ok k ->
  session_store w' = delete k (session_store w).
Proof.
  intros Hh Hover Hk.
  apply handle_success_inv in Hh
    as (msg & ch & contents & mo & l & k' & _ & _ & _ & _ & _ & _ & _ & Hk' & ->).
  assert (k' = k) as -> by congruence.
  by rewrite Hover.
Qed.

(** A terminal turn that is answered with success leaves no entry for the
    session in the store, and a later request with the same session id and
    no [conversationHistory] resolves to a new empty history that is shared
    with no stored session. *)
Lemma answered_termination_is_final net req w reply over sid intel notes w' k :
  handle net req w = (Ok (success_response reply over sid intel notes), w') ->
  truthy over = true ->
  key_of sid = Ok k ->
  (exists contents mo,
      In (GeminiCalled contents) (calls w') /\
      model_result json_loads (gemini net contents) = Ok mo /\
      py_get mo "isConversationOver" (JBool false) = Ok over) /\
  session_store w' !! k = None /\
  forall data2 sid2,
    py_getitem data2 "sessionId" = Ok sid2 ->
    key_of sid2 = Ok k ->
    py_in "conversationHistory" data2 = Ok false ->
    resolve_history data2 sid2 w' = (Ok (ListVar None (JArr [])), w').
Proof.
  intros Hh Hover Hk.
  apply handle_success_inv in Hh
    as (msg & ch & contents & mo & l & k' & Hpre & Hmo & _ & Ho & _ & _ & _ & Hk' & Hw).
  assert (k' = k) as -> by congruence.
  rewrite Hover in Hw. cbn [turn_store] in Hw. subst w'. cbn [session_store calls].
  split; [|split].
  - exists contents, mo. split; [|by split].
    apply in_or_app. right. by left.
  - apply lookup_delete_eq.
  - intros data2 sid2 Hsid2 Hk2 Habs.
    apply (resolve_history_fresh data2 sid2 k).
    + by apply (absent_history_default data2 sid2).
    + assumption.
    + cbn [session_store]. apply lookup_delete_eq.
Qed.

(** [send_final_report] returns normally when what it prints can be printed:
    the session id, and the response text when the status is not 200. *)
Lemma send_final_report_returns net sid n i a w :
  printable (py_str sid) = true ->
  (forall response,
     guvi net (report_payload sid n i a) = PostReturns response ->
     status_code response = 200%Z \/ printable (text response) = true) ->
  fst (send_final_report py_str printable net sid n i a w) = Ok tt.
Proof.
  intros Hs Hr. rewrite send_final_report_eq. cbn [fst].
  by apply report_result_printable.
Qed.

(** It raises [UnicodeEncodeError] when the session id cannot be printed,
    whatever the report endpoint does. *)
Lemma send_final_report_raises net sid n i a w :
  printable (py_str sid) = false ->
  fst (send_final_report py_str printable net sid n i a w) = Raise UnicodeEncodeError.
Proof.
  intros Hs. rewrite send_final_report_eq. cbn [fst]. unfold report_result.
  rewrite Hs. by destruct (guvi net _).
Qed.












(** C1, amended.  The Intelligence Record is the latest delta.  After a
    successful turn the [extractedIntelligence] returned, and the record
    stored when the conversation goes on, is the [extractedIntelligence] of
    this turn's model result (the empty mapping when it has none): it
    replaces what was stored. *)
Theorem intelligence_is_the_latest_delta net req w reply over sid intel notes w' :
  handle net req w = (Ok (success_response reply over sid intel notes), w') ->
  exists contents mo,
    In (GeminiCalled contents) (calls w') /\
    model_result json_loads (gemini net contents) = Ok mo /\
    py_get mo "extractedIntelligence" (JObj []) = Ok intel /\
    response_field "extractedIntelligence" (Ok (success_response reply over sid intel notes))
      = Some intel /\
    (truthy over = false ->
     forall k, key_of sid = Ok k ->
       intelligence <$> (session_store w' !! k) = Some intel).
Proof.
  intros Hh.
  apply handle_success_inv in Hh
    as (msg & ch & contents & mo & l & k' & Hpre & Hmo & _ & _ & Hi & _ & _ & Hk' & ->).
  exists contents, mo. repeat split; try assumption.
  - cbn [calls]. destruct (truthy over); apply in_or_app; right; by left.
  - intros Hover k Hk. assert (k' = k) as -> by congruence.
    rewrite Hover. cbn [session_store turn_store]. by rewrite lookup_insert_eq.
Qed.

(** C8, amended.  The record has the categories of the delta.  After a
    successful turn a category key is in the record returned, and in the
    record stored when the conversation goes on, exactly when it is in the
    [extractedIntelligence] of this turn's model result. *)
Theorem intelligence_keys_are_the_deltas net req w reply over sid intel notes w' :
  handle net req w = (Ok (success_response reply over sid intel notes), w') ->
  exists contents mo delta,
    In (GeminiCalled contents) (calls w') /\
    model_result json_loads (gemini net contents) = Ok mo /\
    py_get mo "extractedIntelligence" (JObj []) = Ok delta /\
    forall category,
      py_in category intel = py_in category delta /\
      (truthy over = false ->
       forall k s, key_of sid = Ok k -> session_store w' !! k = Some s ->
         py_in category (intelligence s) = py_in category delta).
Proof.
  intros Hh.
  apply handle_success_inv in Hh
    as (msg & ch & contents & mo & l & k' & Hpre & Hmo & _ & _ & Hi & _ & _ & Hk' & ->).
  exists contents, mo, intel. repeat split; try assumption.
  - cbn [calls]. destruct (truthy over); apply in_or_app; right; by left.
  - intros Hover k s Hk. assert (k' = k) as -> by congruence.
    rewrite Hover. cbn [session_store turn_store]. rewrite lookup_insert_eq.
    by intros [= <-].
Qed.

Lemma finish_turn_same_report net1 net2 sid msg ch mo w :
  (forall payload, guvi net1 payload = guvi net2 payload) ->
  (forall k0, shared_with ch = Some k0 -> key_of sid = Ok k0) ->
  finish_turn py_str printable net1 sid msg ch mo w =
  finish_turn py_str printable net2 sid msg ch mo w.
Proof.
  intros Hg Hshared.
  destruct (finish_turn_cases sid msg ch mo w Hshared)
    as [(reply & over & intel & notes & l & k & Hr & Ho & Hi & Hn & Hv & Hk & Hs)
       |(e & Hne & He)].
  - rewrite !(finish_turn_eq _ sid msg ch mo _ reply over intel notes l k) by assumption.
    unfold report_result. by rewrite Hg.
  - by rewrite !He.
Qed.

Lemma finish_turn_with_defaults net sid msg ch fields w :
  finish_turn py_str printable net sid msg ch (JObj fields) w =
  finish_turn py_str printable net sid msg ch (with_defaults fields) w.
Proof. reflexivity. Qed.

(** C3, amended.  Missing fields take defaults.  A model result that is an
    object lacking any of the four fields is handled exactly as the result
    with the defaults filled in ([null], [false], the empty mapping, the
    empty string), the report endpoint being the same in both runs: same
    response, same store, same calls. *)
Theorem missing_fields_take_defaults net1 net2 req w fields :
  (forall c, model_result json_loads (gemini net1 c) = Ok (JObj fields)) ->
  (forall c, model_result json_loads (gemini net2 c) = Ok (with_defaults fields)) ->
  (forall payload, guvi net1 payload = guvi net2 payload) ->
  handle net1 req w = handle net2 req w.
Proof.
  intros H1 H2 Hg. unfold handle_honeypot_request.
  destruct (unauthorized YOUR_API_KEY (x_api_key req)); [reflexivity|].
  cbv [bind lift ret].
  destruct (invalid_body (get_json req)) as [[]|e]; try reflexivity.
  destruct (py_getitem (get_json req) "sessionId") as [sid|e]; [|reflexivity].
  destruct (py_getitem (get_json req) "message") as [msg|e]; [|reflexivity].
  destruct (resolve_history (get_json req) sid w) as [[ch|e] w0] eqn:Hres; [|reflexivity].
  pose proof (resolve_history_pure _ _ _ _ _ Hres) as ->.
  destruct (build_contents (value ch) msg) as [contents|e]; [|reflexivity].
  unfold try_except. rewrite !try_body_eq, H1, H2.
  rewrite <- finish_turn_with_defaults.
  by rewrite (finish_turn_same_report net1 net2 _ _ _ _ _ Hg
                (resolve_history_shared _ _ _ _ Hres)).
Qed.


Lemma bad_status_raises resp :
  400 <= status_code resp < 600 ->
  read_model_output json_loads resp = Raise (HTTPError resp).
Proof.
  intros [Hlo Hhi]. unfold read_model_output, raise_for_status.
  apply Z.leb_le in Hlo. apply Z.ltb_lt in Hhi. by rewrite Hlo, Hhi.
Qed.












(** *** Further properties of the handler *)

Lemma gateway_failure_outcome net req w r w' c rest e :
  handle net req w = (r, w') ->
  calls w' = calls w ++ GeminiCalled c :: rest ->
  model_result json_loads (gemini net c) = Raise e ->
  exists sid,
    py_getitem (get_json req) "sessionId" = Ok sid /\
    (r, w') =
      match e with
      | HTTPError resp => except_HTTPError json_loads py_str printable resp (called c w)
      | _ => (logged_500 sid, called c w)
      end.
Proof.
  intros Hh Hc He. apply handle_turn in Hh.
  destruct (turn_called _ _ _ _ _ _ _ Hh Hc) as (sid0 & msg0 & ch0 & Hpre0).
  exists sid0. split; [by destruct Hpre0|].
  destruct Hh as [ | | |sid msg ch contents e' r Hpre Hmo Hr
                  |sid msg ch contents mo e' Hpre Hmo Hf
                  |sid msg ch contents mo reply over intel notes l k Hpre Hmo
                  |sid msg ch contents mo reply over intel notes l k e' Hpre Hmo].
  1-3: by apply app_cons_not_nil in Hc.
  all: destruct (prelude_contents _ _ _ _ _ _ _ _ _ _ Hpre0 Hpre) as (-> & _ & _ & ->).
  all: rewrite Hmo in He; try discriminate.
  injection He as ->. exact Hr.
Qed.

Lemma turn_not_unauthorized net req w r w' :
  turn net req w r w' ->
  unauthorized YOUR_API_KEY (x_api_key req) = false ->
  forall msg, r <> Ok (error_response msg 401).
Proof.
  intros Ht Hauth msg.
  destruct Ht as [Hu| | |sid m ch contents e' r Hpre Hmo Hr
                 |sid m ch contents mo e' Hpre Hmo Hf
                 |sid m ch contents mo reply over intel notes l k Hpre Hmo
                 |sid m ch contents mo reply over intel notes l k e' Hpre Hmo];
    try discriminate;
    try (intros Hlog; apply logged_500_inv in Hlog; discriminate).
  - congruence.
  - destruct e' as [|resp| | | | | |];
      try (injection Hr as ->; intros Hlog; apply logged_500_inv in Hlog; discriminate).
    destruct (except_HTTPError_pure resp (called contents w)) as (x & Hx & Hsh).
    rewrite Hx in Hr. injection Hr as ->.
    destruct x as [y|]; [|discriminate]. destruct Hsh as [m' ->]. discriminate.
Qed.

(** X1.  Authentication.  A request whose [x-api-key] header is missing,
    empty or different from the service key is answered 401 [Unauthorized]
    with the world untouched: no call is made and no session is read or
    written.  A request carrying the (non-empty) service key is never
    answered 401. *)
Theorem bad_key_is_answered_401 net w :
  (forall req,
      x_api_key req = None \/ x_api_key req = Some EmptyString \/
      (exists k, x_api_key req = Some k /\ k <> YOUR_API_KEY) ->
      handle net req w = (Ok (error_response "Unauthorized" 401), w)) /\
  (forall req,
      x_api_key req = Some YOUR_API_KEY -> YOUR_API_KEY <> EmptyString ->
      forall msg, fst (handle net req w) <> Ok (error_response msg 401)).
Proof.
  split.
  - intros req H. unfold handle_honeypot_request.
    assert (unauthorized YOUR_API_KEY (x_api_key req) = true) as ->; [|reflexivity].
    destruct H as [->| [->| (k & -> & Hne)]]; cbn; try reflexivity.
    apply String.eqb_neq in Hne. rewrite Hne. apply orb_true_r.
  - intros req Hk Hne msg.
    destruct (handle net req w) as [r w'] eqn:Hh. cbn [fst].
    apply handle_turn in Hh. apply (turn_not_unauthorized _ _ _ _ _ Hh).
    rewrite Hk. cbn. apply String.eqb_neq in Hne. rewrite Hne.
    by rewrite String.eqb_refl.
Qed.

(** X2.  Validation.  An authorised request whose body, the value
    [request.get_json()] returns, is falsy ([null], [{}], [[]], the empty
    string, [0], [false]) or is an object without [sessionId] or without
    [message] is answered 400 [Invalid request body] with the world
    untouched. *)
Theorem incomplete_body_is_answered_400 net req w :
  unauthorized YOUR_API_KEY (x_api_key req) = false ->
  (truthy (get_json req) = false \/
   exists fields, get_json req = JObj fields /\
     (dict_get "sessionId" fields = None \/ dict_get "message" fields = None)) ->
  handle net req w = (Ok (error_response "Invalid request body" 400), w).
Proof.
  intros Hauth Hbody. unfold handle_honeypot_request. rewrite Hauth.
  assert (invalid_body (get_json req) = Ok true) as ->; [|reflexivity].
  unfold invalid_body. destruct Hbody as [->|(fields & -> & Hmiss)]; [reflexivity|].
  destruct (truthy (JObj fields)); [|reflexivity]. cbn.
  destruct Hmiss as [Hs|Hm].
  - by rewrite Hs.
  - destruct (dict_get "sessionId" fields); [|reflexivity]. cbn. by rewrite Hm.
Qed.

Lemma rmap_to_content history :
  rmap to_content (map JObj history) = Ok (map content_of history).
Proof.
  induction history as [|fields history IH]; [reflexivity|].
  cbn [map rmap]. rewrite IH. reflexivity.
Qed.

(** X3.  The transcript sent to the model.  For a history that is a list of
    objects and a message that is an object, the handler sends one entry per
    history message, in order, followed by the new message as a [user]
    entry: a history message is a [user] entry exactly when its [sender] is
    [scammer] and a [model] entry otherwise (also when it has no [sender]);
    a missing [text] is sent as the empty string. *)
Theorem transcript_is_role_mapped
    (history : list (list (string * json))) (message : list (string * json)) :
  build_contents (JArr (map JObj history)) (JObj message) =
    Ok (map content_of history ++
        [Content "user" (or_default (JStr EmptyString) (dict_get "text" message))]).
Proof.
  unfold build_contents. cbn [py_iter rbind]. rewrite rmap_to_content. reflexivity.
Qed.

Lemma build_contents_needs_object h m c :
  build_contents h m = Ok c -> exists fields, m = JObj fields.
Proof.
  unfold build_contents.
  destruct (py_iter h) as [items|]; [|discriminate]. cbn [rbind].
  destruct (rmap to_content items); [|discriminate]. cbn [rbind].
  destruct m; try discriminate. eauto.
Qed.

(** X4.  A message that is not an object.  When [message] is present but is
    not a JSON object, the handler ends before the model is called and with
    the world untouched; it never answers success, and when the request is
    authorised and valid an exception leaves it ([incoming_message.get] is
    outside the [try]). *)
Theorem malformed_message_stops_the_turn net req w r w' msg :
  handle net req w = (r, w') ->
  py_getitem (get_json req) "message" = Ok msg ->
  (forall fields, msg <> JObj fields) ->
  w' = w /\
  failure_response r /\
  (unauthorized YOUR_API_KEY (x_api_key req) = false ->
   invalid_body (get_json req) = Ok false ->
   exists e, r = Raise e).
Proof.
  intros Hh Hmsg Hno. apply handle_turn in Hh.
  destruct Hh as [Hu|Hu Hi|e Hu|sid m ch contents e' r Hpre Hmo Hr
                 |sid m ch contents mo e' Hpre Hmo Hf
                 |sid m ch contents mo reply over intel notes l k Hpre Hmo
                 |sid m ch contents mo reply over intel notes l k e' Hpre Hmo].
  - split; [reflexivity|]. split; [|congruence].
    cbn. eexists _, _. split; [reflexivity|lia].
  - split; [reflexivity|]. split; [|congruence].
    cbn. eexists _, _. split; [reflexivity|lia].
  - split; [reflexivity|]. split; [exact I|eauto].
  - exfalso. destruct Hpre as [_ _ _ Hm _ Hc].
    apply build_contents_needs_object in Hc as [fields ->].
    rewrite Hmsg in Hm. injection Hm as ->. by apply (Hno fields).
  - exfalso. destruct Hpre as [_ _ _ Hm _ Hc].
    apply build_contents_needs_object in Hc as [fields ->].
    rewrite Hmsg in Hm. injection Hm as ->. by apply (Hno fields).
  - exfalso. destruct Hpre as [_ _ _ Hm _ Hc].
    apply build_contents_needs_object in Hc as [fields ->].
    rewrite Hmsg in Hm. injection Hm as ->. by apply (Hno fields).
  - exfalso. destruct Hpre as [_ _ _ Hm _ Hc].
    apply build_contents_needs_object in Hc as [fields ->].
    rewrite Hmsg in Hm. injection Hm as ->. by apply (Hno fields).
Qed.

Lemma turn_failure_keeps_store net req w r w' :
  turn net req w r w' ->
  (forall reply over sid intel notes, r <> Ok (success_response reply over sid intel notes)) ->
  (forall c payload, calls w' <> calls w ++ [GeminiCalled c; ReportSent payload]) ->
  session_store w' = session_store w.
Proof.
  intros Ht Hno Hrep.
  destruct Ht as [ | | |sid m ch contents e' r Hpre Hmo Hr
                 |sid m ch contents mo e' Hpre Hmo Hf
                 |sid m ch contents mo reply over intel notes l k Hpre Hmo
                 |sid m ch contents mo reply over intel notes l k e' Hpre Hmo];
    try reflexivity.
  - exfalso. by eapply Hno.
  - exfalso. by eapply Hrep.
Qed.

(** X5.  A failed turn and the store.  A run of the handler that does not
    end in the success response leaves the session store exactly as it was,
    unless it has posted the final report.  A run that has posted the
    report and does not end in success is a failure, and its only change to
    the store is the entry of the request's session, written at line 169
    and not deleted at line 180: the entry the report was made from. *)
Theorem failed_turn_and_the_store net req w r w' :
  handle net req w = (r, w') ->
  (forall reply over sid intel notes, r <> Ok (success_response reply over sid intel notes)) ->
  ((forall c payload, calls w' <> calls w ++ [GeminiCalled c; ReportSent payload]) ->
   session_store w' = session_store w) /\
  (forall c payload,
      calls w' = calls w ++ [GeminiCalled c; ReportSent payload] ->
      failure_response r /\
      exists sid k entry items,
        py_getitem (get_json req) "sessionId" = Ok sid /\
        key_of sid = Ok k /\
        session_store w' = <[k := entry]> (session_store w) /\
        history entry = JArr items /\
        payload = report_payload sid (Z.of_nat (List.length items))
                    (intelligence entry) (agent_notes entry)).
Proof.
  intros Hh Hno. apply handle_turn in Hh. split.
  { by apply turn_failure_keeps_store with net req r. }
  intros c payload Hc.
  destruct Hh as [ | | |sid m ch contents e' r Hpre Hmo Hr
                 |sid m ch contents mo e' Hpre Hmo Hf
                 |sid m ch contents mo reply over intel notes l k Hpre Hmo Hr Ho Hi Hn Hv Hk
                 |sid m ch contents mo reply over intel notes l k e' Hpre Hmo Hr Ho Hi Hn Hv Hk].
  1-3: exfalso; by apply app_cons_not_nil in Hc.
  1-2: exfalso; cbn [called calls] in Hc; apply app_inv_head in Hc; discriminate.
  - exfalso. by eapply Hno.
  - split; [apply logged_500_fails|].
    cbn [calls] in Hc. apply app_inv_head in Hc. injection Hc as <- <-.
    destruct Hpre as [_ _ Hsid _ _ _].
    exists sid, k, (Session (JArr ((l ++ [m]) ++ [agent_turn reply])) intel notes),
      ((l ++ [m]) ++ [agent_turn reply]).
    by repeat split.
Qed.

(** X6.  A turn touches its own session only.  The entry (or absence) of
    every key other than the key of the request's [sessionId] is the same
    after the turn as before. *)
Theorem other_sessions_are_untouched net req w r w' k' :
  handle net req w = (r, w') ->
  (forall sid, py_getitem (get_json req) "sessionId" = Ok sid -> key_of sid <> Ok k') ->
  session_store w' !! k' = session_store w !! k'.
Proof.
  intros Hh Hother. apply handle_turn in Hh.
  destruct Hh as [ | | |sid m ch contents e' r Hpre Hmo Hr
                 |sid m ch contents mo e' Hpre Hmo Hf
                 |sid m ch contents mo reply over intel notes l k Hpre Hmo Hr Ho Hi Hn Hv Hk
                 |sid m ch contents mo reply over intel notes l k e' Hpre Hmo Hr Ho Hi Hn Hv Hk];
    try reflexivity.
  all: assert (k <> k') as Hne
    by (intros ->; destruct Hpre as [_ _ Hs _ _ _]; by apply (Hother sid)).
  - cbn [session_store]. unfold turn_store.
    destruct (truthy over); [by rewrite lookup_delete_ne|by rewrite lookup_insert_ne].
  - cbn [session_store]. by rewrite lookup_insert_ne.
Qed.

(** X7.  At most one call to each collaborator.  One run of the handler
    makes no outbound call, or one call to the model, or one call to the
    model followed by one report.  The report is sent only by a turn whose
    model result has a truthy [isConversationOver]; such a run ends in the
    success response, or in a failure when a line [send_final_report]
    prints cannot be printed: status 500, or the [UnicodeEncodeError] that
    leaves the handler. *)
Theorem at_most_one_call_each net req w r w' :
  handle net req w = (r, w') ->
  calls w' = calls w \/
  (exists c, calls w' = calls w ++ [GeminiCalled c]) \/
  (exists c mo reply over sid intel notes n,
      calls w' = calls w ++ [GeminiCalled c; ReportSent (report_payload sid n intel notes)] /\
      model_result json_loads (gemini net c) = Ok mo /\
      py_get mo "isConversationOver" (JBool false) = Ok over /\
      truthy over = true /\
      (r = Ok (success_response reply over sid intel notes) \/
       r = Ok (error_response "Internal server error" 500) \/
       r = Raise UnicodeEncodeError)).
Proof.
  intros Hh. apply handle_turn in Hh.
  destruct Hh as [ | | |sid m ch contents e' r Hpre Hmo Hr
                 |sid m ch contents mo e' Hpre Hmo Hf
                 |sid m ch contents mo reply over intel notes l k Hpre Hmo Hr Ho Hi Hn Hv Hk
                 |sid m ch contents mo reply over intel notes l k e' Hpre Hmo Hr Ho Hi Hn Hv Hk
                    Hover].
  1-3: by left.
  1-2: right; left; by exists contents.
  - cbn [calls]. destruct (truthy over) eqn:Hover.
    + right. right. exists contents, mo, reply, over, sid, intel, notes. eexists.
      split; [reflexivity|]. repeat split; try assumption. by left.
    + right. left. by exists contents.
  - right. right. exists contents, mo, reply, over, sid, intel, notes. eexists.
    split; [reflexivity|]. repeat split; try assumption.
    right. unfold logged_500. destruct (printable (py_str sid)); [by left|by right].
Qed.

(** X8.  What the final report says.  A turn that answers success with a
    truthy [conversationIsOver] calls the model and then posts one report:
    the request's session id, [scamDetected] true, the number of entries of
    the resolved history plus two as [totalMessagesExchanged], and the
    [extractedIntelligence] and [agentNotes] of the response. *)
Theorem report_counts_the_whole_history net req w reply over sid intel notes w' :
  handle net req w = (Ok (success_response reply over sid intel notes), w') ->
  truthy over = true ->
  exists ch l contents,
    py_getitem (get_json req) "sessionId" = Ok sid /\
    resolve_history (get_json req) sid w = (Ok ch, w) /\
    value ch = JArr l /\
    calls w' = calls w ++
      [GeminiCalled contents;
       ReportSent (JObj [("sessionId", sid);
                         ("scamDetected", JBool true);
                         ("totalMessagesExchanged", JNum (Z.of_nat (List.length l) + 2));
                         ("extractedIntelligence", intel);
                         ("agentNotes", notes)])].
Proof.
  intros Hh Hover.
  apply handle_success_inv in Hh
    as (msg & ch & contents & mo & l & k & Hpre & _ & _ & _ & _ & _ & Hv & _ & ->).
  destruct Hpre as [_ _ Hsid _ Hres _].
  exists ch, l, contents. repeat split; try assumption.
  rewrite Hover. cbn [calls]. unfold report_payload.
  rewrite !length_app. cbn [List.length].
  replace (Z.of_nat (List.length l + 1 + 1)) with (Z.of_nat (List.length l) + 2) by lia.
  reflexivity.
Qed.

(** X9.  A caller's history replaces the stored one.  When the request
    brings a non-empty [conversationHistory] and the turn succeeds with the
    conversation going on, the history stored afterwards is the caller's
    list followed by the message and the agent's reply, whatever history the
    session had in store before. *)
Theorem supplied_history_replaces_the_stored_one
    net req w reply over sid intel notes w' k x l :
  handle net req w = (Ok (success_response reply over sid intel notes), w') ->
  truthy over = false ->
  py_get (get_json req) "conversationHistory" (JArr []) = Ok (JArr (x :: l)) ->
  key_of sid = Ok k ->
  stored_history w' k = JArr ((x :: l) ++ [message_of req; agent_turn reply]).
Proof.
  intros Hh Hover Hsup Hk.
  apply handle_success_inv in Hh
    as (msg & ch & contents & mo & l0 & k' & Hpre & _ & _ & _ & _ & _ & Hv & Hk' & ->).
  assert (k' = k) as -> by congruence.
  destruct Hpre as [_ _ _ Hmsg Hres _].
  rewrite (resolve_history_supplied _ _ _ _ _ Hsup) in Hres. injection Hres as <-.
  cbn [value] in Hv. injection Hv as <-.
  rewrite Hover. unfold stored_history, turn_store. cbn [session_store].
  rewrite lookup_insert_eq. cbn [history]. unfold message_of. rewrite Hmsg.
  by rewrite <- app_assoc.
Qed.

(** X10.  Notes and reply are the latest.  After a successful turn the
    [agentReply] and [agentNotes] returned are the [agentResponseText] and
    [agentNotes] of this turn's model result ([null] and the empty string
    when missing), and when the conversation goes on the notes stored for
    the session are these notes: notes are replaced, not accumulated. *)
Theorem notes_are_the_latest net req w reply over sid intel notes w' :
  handle net req w = (Ok (success_response reply over sid intel notes), w') ->
  exists contents mo,
    In (GeminiCalled contents) (calls w') /\
    model_result json_loads (gemini net contents) = Ok mo /\
    py_get mo "agentResponseText" JNull = Ok reply /\
    py_get mo "agentNotes" (JStr EmptyString) = Ok notes /\
    (truthy over = false ->
     forall k, key_of sid = Ok k ->
       agent_notes <$> (session_store w' !! k) = Some notes).
Proof.
  intros Hh.
  apply handle_success_inv in Hh
    as (msg & ch & contents & mo & l & k' & Hpre & Hmo & Hr & _ & _ & Hn & _ & Hk' & ->).
  exists contents, mo. repeat split; try assumption.
  - cbn [calls]. destruct (truthy over); apply in_or_app; right; by left.
  - intros Hover k Hk. assert (k' = k) as -> by congruence.
    rewrite Hover. cbn [session_store turn_store]. by rewrite lookup_insert_eq.
Qed.

(** X11.  The model is sent the stored transcript.  When the request brings
    no [conversationHistory], the transcript of the call the turn makes to
    the model is built from the history stored for the session (the empty
    list for an unknown session) and the incoming message. *)
Theorem model_sees_the_stored_transcript net req w r w' c rest sid k :
  handle net req w = (r, w') ->
  calls w' = calls w ++ GeminiCalled c :: rest ->
  py_getitem (get_json req) "sessionId" = Ok sid ->
  key_of sid = Ok k ->
  py_in "conversationHistory" (get_json req) = Ok false ->
  build_contents (stored_history w k) (message_of req) = Ok c.
Proof.
  intros Hh Hc Hsid Hk Habs. apply handle_turn in Hh.
  destruct (turn_called _ _ _ _ _ _ _ Hh Hc) as (sid0 & msg0 & ch0 & [_ _ Hs Hm Hres Hb]).
  assert (sid0 = sid) as -> by congruence.
  unfold message_of. rewrite Hm.
  pose proof (absent_history_default _ _ Hsid Habs) as Hdef.
  unfold stored_history.
  destruct (session_store w !! k) as [s|] eqn:Hl.
  - rewrite (resolve_history_stored _ _ _ _ _ Hdef Hk Hl) in Hres.
    injection Hres as <-. exact Hb.
  - rewrite (resolve_history_fresh _ _ _ _ Hdef Hk Hl) in Hres.
    injection Hres as <-. exact Hb.
Qed.

(** X12.  A session id that cannot be a dictionary key.  When [sessionId] is
    a list or an object, the turn never answers success and never changes
    the store; and when the request brings no history of its own the
    [TypeError] of the store lookup leaves the handler before any call. *)
Theorem unhashable_session_id_never_succeeds net req w r w' sid :
  handle net req w = (r, w') ->
  py_getitem (get_json req) "sessionId" = Ok sid ->
  key_of sid = Raise TypeError ->
  session_store w' = session_store w /\
  (forall reply over sid' intel notes,
      r <> Ok (success_response reply over sid' intel notes)) /\
  (forall supplied,
      unauthorized YOUR_API_KEY (x_api_key req) = false ->
      invalid_body (get_json req) = Ok false ->
      py_get (get_json req) "conversationHistory" (JArr []) = Ok supplied ->
      truthy supplied = false ->
      r = Raise TypeError /\ w' = w).
Proof.
  intros Hh Hsid Hkey.
  assert (Hno : forall reply over sid' intel notes,
             r <> Ok (success_response reply over sid' intel notes)).
  { intros reply over sid' intel notes ->.
    apply handle_success_inv in Hh
      as (msg & ch & contents & mo & l & k & [_ _ Hs _ _ _] & _ & _ & _ & _ & _ & _ & Hk & _).
    congruence. }
  split.
  { pose proof (handle_turn _ _ _ _ _ Hh) as Ht.
    destruct Ht as [ | | |sid0 m ch contents e' r Hpre Hmo Hr
                   |sid0 m ch contents mo e' Hpre Hmo Hf
                   |sid0 m ch contents mo reply over intel notes l k Hpre Hmo Hr Ho Hi Hn Hv Hk
                   |sid0 m ch contents mo reply over intel notes l k e' Hpre Hmo Hr Ho Hi Hn Hv Hk];
      try reflexivity.
    all: exfalso; destruct Hpre as [_ _ Hs _ _ _]; congruence. }
  split; [exact Hno|].
  intros supplied Hauth Hvalid Hsup Hfalsy.
  revert Hh. unfold handle_honeypot_request. rewrite Hauth. cbv [bind lift ret].
  rewrite Hvalid, Hsid.
  destruct (py_getitem (get_json req) "message") as [msg|e] eqn:Hm.
  2: { exfalso. revert Hvalid. unfold invalid_body.
       destruct (get_json req) as [| | | | |fields]; try discriminate.
       destruct (truthy (JObj fields)); [|discriminate]. cbn.
       destruct (dict_get "sessionId" fields); [|discriminate]. cbn.
       cbn in Hm. destruct (dict_get "message" fields); discriminate. }
  unfold resolve_history. cbv [bind lift ret]. rewrite Hsup, Hfalsy, Hkey.
  by intros [= <- <-].
Qed.

Lemma except_HTTPError_structured resp fields efields m w :
  json_loads (text resp) = Some (JObj fields) ->
  dict_get "error" fields = Some (JObj efields) ->
  dict_get "message" efields = Some m ->
  except_HTTPError json_loads py_str printable resp w =
    (if printable (py_str m)
     then Ok (error_response ("AI Service Error: " +:+ py_str m) 502)
     else Raise UnicodeEncodeError, w).
Proof.
  intros Hj He Hm. rewrite except_HTTPError_eq. unfold error_message_of, response_json.
  rewrite Hj. cbn [py_in py_getitem rbind]. rewrite He. cbn [py_in py_getitem rbind].
  rewrite Hm. cbn. by rewrite andb_true_r.
Qed.

Lemma except_HTTPError_unstructured resp fields w :
  json_loads (text resp) = Some (JObj fields) ->
  dict_get "error" fields = None \/
  (exists efields, dict_get "error" fields = Some (JObj efields) /\
                   dict_get "message" efields = None) ->
  except_HTTPError json_loads py_str printable resp w =
    (if printable (text resp)
     then Ok (error_response ("AI Service Error (unstructured): " +:+ text resp) 502)
     else Raise UnicodeEncodeError, w).
Proof.
  intros Hj H. rewrite except_HTTPError_eq. unfold error_message_of, response_json.
  rewrite Hj. cbn [py_in py_getitem rbind]. destruct H as [He|(efields & He & Hm)]; rewrite He.
  - cbn. by rewrite andb_true_r.
  - cbn [py_in py_getitem rbind]. rewrite Hm. cbn. by rewrite andb_true_r.
Qed.

Lemma except_HTTPError_scalar resp v w :
  json_loads (text resp) = Some v ->
  is_scalar v = true ->
  except_HTTPError json_loads py_str printable resp w = (Raise TypeError, w).
Proof.
  intros Hj Hs. rewrite except_HTTPError_eq. unfold error_message_of, response_json.
  rewrite Hj. destruct v; try discriminate; reflexivity.
Qed.

(** X13.  The 502 message relays the upstream error.  When the model service
    answers a 4xx or 5xx status with a JSON object, the handler builds the
    message [AI Service Error: ] followed by the [message] of its [error]
    object when there is one, and [AI Service Error (unstructured): ]
    followed by the raw response text when the object has no [error] member
    or the [error] object has no [message].  It prints the message at line
    209: when what it relays can be printed the caller gets status 502 with
    this message, and when it cannot the [UnicodeEncodeError] of [print]
    leaves the handler. *)
Theorem upstream_error_message_is_relayed net req w r w' c rest resp fields :
  handle net req w = (r, w') ->
  calls w' = calls w ++ GeminiCalled c :: rest ->
  gemini net c = PostReturns resp ->
  400 <= status_code resp < 600 ->
  json_loads (text resp) = Some (JObj fields) ->
  (forall efields m,
      dict_get "error" fields = Some (JObj efields) ->
      dict_get "message" efields = Some m ->
      r = if printable (py_str m)
          then Ok (error_response ("AI Service Error: " +:+ py_str m) 502)
          else Raise UnicodeEncodeError) /\
  (dict_get "error" fields = None \/
   (exists efields, dict_get "error" fields = Some (JObj efields) /\
                    dict_get "message" efields = None) ->
   r = if printable (text resp)
       then Ok (error_response ("AI Service Error (unstructured): " +:+ text resp) 502)
       else Raise UnicodeEncodeError).
Proof.
  intros Hh Hc Hg Hst Hj.
  assert (Hm : model_result json_loads (gemini net c) = Raise (HTTPError resp)).
  { rewrite Hg. cbn [model_result]. by apply bad_status_raises. }
  destruct (gateway_failure_outcome _ _ _ _ _ _ _ _ Hh Hc Hm) as (sid & _ & Hout).
  cbv beta iota in Hout. split.
  - intros efields m He Hmsg.
    rewrite (except_HTTPError_structured _ _ _ _ _ Hj He Hmsg) in Hout. by injection Hout.
  - intros H. rewrite (except_HTTPError_unstructured _ _ _ Hj H) in Hout. by injection Hout.
Qed.

(** X14.  An error body that is a bare scalar.  When the model service
    answers a 4xx or 5xx status whose body is the JSON text of a number, a
    boolean or [null], the caller gets neither the 502 nor the 500 response
    of the handler: ['error' in error_details] raises a [TypeError] inside
    the [except] clause, which leaves the handler.  The store is unchanged. *)
Theorem scalar_error_body_escapes net req w r w' c rest resp v :
  handle net req w = (r, w') ->
  calls w' = calls w ++ GeminiCalled c :: rest ->
  gemini net c = PostReturns resp ->
  400 <= status_code resp < 600 ->
  json_loads (text resp) = Some v ->
  is_scalar v = true ->
  r = Raise TypeError /\ session_store w' = session_store w.
Proof.
  intros Hh Hc Hg Hst Hj Hs.
  assert (Hm : model_result json_loads (gemini net c) = Raise (HTTPError resp)).
  { rewrite Hg. cbn [model_result]. by apply bad_status_raises. }
  destruct (gateway_failure_outcome _ _ _ _ _ _ _ _ Hh Hc Hm) as (sid & _ & Hout).
  cbv beta iota in Hout. rewrite (except_HTTPError_scalar _ _ _ Hj Hs) in Hout.
  by injection Hout as -> ->.
Qed.

(** X15.  Start-up.  The module starts exactly when both [GEMINI_API_KEY]
    and [YOUR_SECRET_API_KEY] are set to non-empty strings, and then holds
    these two values; so in a service that has started, a request passes
    the authentication of the handler exactly when its [x-api-key] header is
    the configured secret. *)
Theorem started_service_has_both_secrets (getenv : string -> option string) :
  (forall c,
      startup getenv = Started c <->
      getenv "GEMINI_API_KEY" = Some (cfg_GEMINI_API_KEY c) /\
      cfg_GEMINI_API_KEY c <> EmptyString /\
      getenv "YOUR_SECRET_API_KEY" = Some (cfg_YOUR_API_KEY c) /\
      cfg_YOUR_API_KEY c <> EmptyString) /\
  (forall c header,
      startup getenv = Started c ->
      unauthorized (cfg_YOUR_API_KEY c) header = false <-> header = Some (cfg_YOUR_API_KEY c)).
Proof.
  assert (H1 : forall c,
      startup getenv = Started c <->
      getenv "GEMINI_API_KEY" = Some (cfg_GEMINI_API_KEY c) /\
      cfg_GEMINI_API_KEY c <> EmptyString /\
      getenv "YOUR_SECRET_API_KEY" = Some (cfg_YOUR_API_KEY c) /\
      cfg_YOUR_API_KEY c <> EmptyString).
  { intros [g y]. unfold startup. cbn [cfg_GEMINI_API_KEY cfg_YOUR_API_KEY]. split.
    - destruct (getenv "GEMINI_API_KEY") as [g'|]; [|discriminate].
      destruct (String.eqb g' EmptyString) eqn:Eg; [discriminate|].
      destruct (getenv "YOUR_SECRET_API_KEY") as [y'|]; [|discriminate].
      destruct (String.eqb y' EmptyString) eqn:Ey; [discriminate|].
      intros [= -> ->]. apply String.eqb_neq in Eg, Ey. done.
    - intros (-> & Hg & -> & Hy). apply String.eqb_neq in Hg, Hy. by rewrite Hg, Hy. }
  split; [exact H1|].
  intros c header Hs. apply H1 in Hs as (_ & _ & _ & Hy).
  unfold unauthorized. destruct header as [h|]; [|split; discriminate].
  split.
  - intros H. apply orb_false_elim in H as [_ H]. apply negb_false_iff in H.
    apply String.eqb_eq in H. by subst h.
  - intros [= ->]. apply String.eqb_neq in Hy. rewrite Hy. by rewrite String.eqb_refl.
Qed.

Lemma turn_keeps_histories net req w r w' :
  turn net req w r w' ->
  histories_end_with_agent (session_store w) ->
  histories_end_with_agent (session_store w').
Proof.
  intros Ht Hwf.
  destruct Ht as [ | | |sid m ch contents e' r Hpre Hmo Hr
                 |sid m ch contents mo e' Hpre Hmo Hf
                 |sid m ch contents mo reply over intel notes l k Hpre Hmo Hr Ho Hi Hn Hv Hk
                 |sid m ch contents mo reply over intel notes l k e' Hpre Hmo Hr Ho Hi Hn Hv Hk];
    try exact Hwf.
  - intros k0 s. cbn [session_store]. unfold turn_store. destruct (truthy over).
    + intros Hl. apply lookup_delete_Some in Hl as [_ Hl]. by apply (Hwf k0).
    + destruct (decide (k = k0)) as [->|Hne].
      * rewrite lookup_insert_eq. intros [= <-]. cbn [history].
        exists l, m, reply. f_equal. symmetry. apply (app_assoc l [m] [agent_turn reply]).
      * rewrite lookup_insert_ne by done. apply Hwf.
  - intros k0 s. cbn [session_store].
    destruct (decide (k = k0)) as [->|Hne].
    + rewrite lookup_insert_eq. intros [= <-]. cbn [history].
      exists l, m, reply. f_equal. symmetry. apply (app_assoc l [m] [agent_turn reply]).
    + rewrite lookup_insert_ne by done. apply Hwf.
Qed.

(** X16.  Stored histories end with the agent.  If every stored history is
    a list whose last two entries are a message and the agent turn that
    answers it, the same holds after any sequence of turns, whatever the
    requests and whatever the collaborators do; it holds of the empty store
    the process starts with. *)
Theorem stored_histories_end_with_the_agent turns : forall w,
  histories_end_with_agent (session_store w) ->
  histories_end_with_agent (session_store (snd (run_turns turns w))).
Proof.
  induction turns as [|[net req] turns IH]; intros w Hwf; [exact Hwf|].
  cbn [run_turns]. destruct (handle net req w) as [r w1] eqn:Hh.
  specialize (IH w1). destruct (run_turns turns w1) as [rs w2]. cbn [snd] in *.
  apply IH. apply handle_turn in Hh. by apply (turn_keeps_histories _ _ _ _ _ Hh).
Qed.

Lemma stateless_ret {A : Type} (a : A) : stateless (ret a).
Proof. by exists (Ok a). Qed.

Lemma stateless_lift {A : Type} (r : result A) : stateless (lift r).
Proof. by exists r. Qed.

Lemma stateless_bind {A B : Type} (c : M A) (k : A -> M B) :
  stateless c -> (forall a, stateless (k a)) -> stateless (bind c k).
Proof.
  intros [x Hc] Hk. destruct x as [a|e].
  - destruct (Hk a) as [y Hy]. exists y. intros w. unfold bind. by rewrite Hc, Hy.
  - exists (Raise e). intros w. unfold bind. by rewrite Hc.
Qed.

Lemma stateless_try_except {A : Type} (c : M A) (h : exn -> option (M A)) :
  stateless c -> (forall e c', h e = Some c' -> stateless c') -> stateless (try_except c h).
Proof.
  intros [x Hc] Hh. destruct x as [a|e].
  - exists (Ok a). intros w. unfold try_except. by rewrite Hc.
  - destruct (h e) as [c'|] eqn:He.
    + destruct (Hh e c' He) as [y Hy]. exists y. intros w. unfold try_except.
      by rewrite Hc, He, Hy.
    + exists (Raise e). intros w. unfold try_except. by rewrite Hc, He.
Qed.

Lemma except_HTTPError_stateless resp :
  stateless (except_HTTPError json_loads py_str printable resp).
Proof.
  eexists. intros w. apply except_HTTPError_eq.
Qed.

Lemma except_clauses_run sid e :
  exists h, except_clauses json_loads py_str printable sid e = Some h /\
    forall w, h w = match e with
                    | HTTPError r => except_HTTPError json_loads py_str printable r w
                    | _ => (logged_500 sid, w)
                    end.
Proof.
  unfold logged_500.
  destruct e; eexists; (split; [reflexivity|]); intros w; try reflexivity.
  all: unfold py_print; unfold_m; cbn [forallb andb]; rewrite andb_true_r.
  all: by destruct (printable (py_str sid)).
Qed.

Lemma resolve_history_store_only data sid store cs1 cs2 :
  fst (resolve_history data sid (World store cs1)) =
  fst (resolve_history data sid (World store cs2)).
Proof.
  unfold resolve_history. unfold_m.
  destruct (py_get data _ _) as [c|e]; [|reflexivity].
  destruct (truthy c); [reflexivity|].
  destruct (key_of sid) as [k|e]; [|reflexivity].
  cbn [session_store]. by destruct (store !! k).
Qed.

Lemma handle_store_only net req store cs1 cs2 :
  fst (handle net req (World store cs1)) = fst (handle net req (World store cs2)) /\
  session_store (snd (handle net req (World store cs1))) =
    session_store (snd (handle net req (World store cs2))).
Proof.
  unfold handle_honeypot_request.
  destruct (unauthorized YOUR_API_KEY (x_api_key req)); [by split|].
  cbv [bind lift ret].
  destruct (invalid_body (get_json req)) as [[]|e]; try (by split).
  destruct (py_getitem (get_json req) "sessionId") as [sid|e]; [|by split].
  destruct (py_getitem (get_json req) "message") as [msg|e]; [|by split].
  pose proof (resolve_history_store_only (get_json req) sid store cs1 cs2) as Hsame.
  destruct (resolve_history (get_json req) sid (World store cs1)) as [x1 w1] eqn:H1.
  destruct (resolve_history (get_json req) sid (World store cs2)) as [x2 w2] eqn:H2.
  pose proof (resolve_history_pure _ _ _ _ _ H1) as ->.
  pose proof (resolve_history_pure _ _ _ _ _ H2) as ->.
  cbn [fst] in Hsame. subst x2. destruct x1 as [ch|e]; [|by split].
  destruct (build_contents (value ch) msg) as [contents|e]; [|by split].
  unfold try_except. rewrite !try_body_eq.
  destruct (model_result json_loads (gemini net contents)) as [mo|e].
  - destruct (finish_turn_cases sid msg ch mo (called contents (World store cs1))
                (resolve_history_shared _ _ _ _ H1))
      as [(reply & over & intel & notes & l & k & Hr & Ho & Hi & Hn & Hv & Hk & Hs)
         |(e1 & Hne1 & He1)].
    + rewrite !(finish_turn_eq net sid msg ch mo _ reply over intel notes l k) by assumption.
      destruct (truthy over); [|by split].
      destruct (report_result net sid _) as [[]|e] eqn:Hrep; [by split|].
      destruct (except_clauses_run sid e) as (h & -> & Hh). rewrite !Hh.
      apply report_result_raises in Hrep as ->. by split.
    + destruct (finish_turn_cases sid msg ch mo (called contents (World store cs2))
                  (resolve_history_shared _ _ _ _ H2))
        as [(reply & over & intel & notes & l & k & Hr & Ho & Hi & Hn & Hv & Hk & Hs)
           |(e2 & Hne2 & He2)].
      * exfalso. specialize (He1 net).
        rewrite (finish_turn_eq net sid msg ch mo _ reply over intel notes l k) in He1
          by assumption.
        destruct (truthy over); [|discriminate He1].
        destruct (report_result net sid _) as [[]|e]; [discriminate He1|].
        injection He1 as _ _ Hcalls. symmetry in Hcalls.
        by apply app_cons_not_nil in Hcalls.
      * rewrite He1, He2.
        destruct (except_clauses_run sid e1) as (h1 & -> & Hh1).
        destruct (except_clauses_run sid e2) as (h2 & -> & Hh2).
        rewrite Hh1, Hh2.
        destruct e1; try discriminate; destruct e2; try discriminate; by split.
  - destruct (except_clauses_run sid e) as (h & -> & Hh). rewrite !Hh.
    destruct e as [|resp| | | | | |]; try (by split).
    destruct (except_HTTPError_stateless resp) as [x Hx]. rewrite !Hx. by split.
Qed.

(** X17.  A retry after a failed turn is a fresh attempt.  If a run of the
    handler does not end in the success response and has not posted the
    final report, any request served next gets the same response and leaves
    the same store as if the failed run had never happened: a turn that
    fails before its report leaves nothing behind that a later turn can
    see. *)
Theorem retry_after_failure_is_a_fresh_attempt net1 net2 req req' w r1 w1 :
  handle net1 req w = (r1, w1) ->
  (forall reply over sid intel notes, r1 <> Ok (success_response reply over sid intel notes)) ->
  (forall c payload, calls w1 <> calls w ++ [GeminiCalled c; ReportSent payload]) ->
  fst (handle net2 req' w1) = fst (handle net2 req' w) /\
  session_store (snd (handle net2 req' w1)) = session_store (snd (handle net2 req' w)).
Proof.
  intros Hh Hno Hrep. apply handle_turn in Hh.
  pose proof (turn_failure_keeps_store _ _ _ _ _ Hh Hno Hrep) as Hstore.
  destruct w1 as [store1 cs1], w as [store cs]. cbn [session_store] in Hstore. subst store1.
  apply handle_store_only.
Qed.

(** X18.  Bodies that are not objects.  An authorised request whose JSON
    body is not an object is answered 400 with the world untouched, or a
    [TypeError] leaves the handler with the world untouched; the latter
    always happens for a non-zero number and for [true], on which
    ['sessionId' not in data] raises. *)
Theorem non_object_body_is_400_or_TypeError net req w :
  unauthorized YOUR_API_KEY (x_api_key req) = false ->
  (forall fields, get_json req <> JObj fields) ->
  (handle net req w = (Ok (error_response "Invalid request body" 400), w) \/
   handle net req w = (Raise TypeError, w)) /\
  (is_scalar (get_json req) = true -> truthy (get_json req) = true ->
   handle net req w = (Raise TypeError, w)).
Proof.
  intros Hauth Hno. unfold handle_honeypot_request. rewrite Hauth.
  cbv [bind lift ret]. unfold invalid_body.
  destruct (get_json req) as [|b|n|s|items|fields] eqn:Hd.
  - split; [by left|discriminate].
  - destruct b; cbn; split; auto; discriminate.
  - cbn [truthy]. destruct (negb (n =? 0)%Z) eqn:Hn; cbn; split; auto; discriminate.
  - cbn [truthy]. split; [|discriminate].
    destruct (negb (String.eqb s EmptyString)); cbn; [|by left].
    destruct (has_substring "sessionId" s); cbn; [|by left].
    destruct (has_substring "message" s); cbn; [by right|by left].
  - cbn [truthy]. split; [|discriminate].
    destruct items as [|x items]; cbn [negb]; [by left|].
    cbn [py_in rbind].
    generalize (existsb (is_str "sessionId") (x :: items))
               (existsb (is_str "message") (x :: items)).
    intros [] []; cbn; auto.
  - exfalso. by apply (Hno fields).
Qed.

End Verification.

(** ** Closed instances *)

Lemma run_pair net req w : run net req w = (fst (run net req w), snd (run net req w)).
Proof. apply surjective_pairing. Defined.

(** C2, witness: the model service is unreachable on the second turn of
    session [s1]; the entry written by the first turn is still there. *)
Lemma gateway_failure_is_atomic_witness :
  session_store (snd (run net_down (turn_request (JStr "s1") pay_now) world_one))
    = session_store world_one /\
  failure_response (fst (run net_down (turn_request (JStr "s1") pay_now) world_one)).
Proof.
  apply (gateway_failure_is_atomic decoder str_of utf8_printable secret net_down
           (turn_request (JStr "s1") pay_now) world_one _ _ contents_two []).
  - apply run_pair.
  - vm_compute. reflexivity.
  - exists RequestException. reflexivity.
Defined.



(** C1, witness: after the second turn of session [s1], whose delta is
    empty, the stored record is empty. *)
Lemma intelligence_is_the_latest_delta_witness :
  intelligence <$> (session_store world_two !! KStr "s1") = Some (JObj []).
Proof.
  destruct (intelligence_is_the_latest_delta decoder str_of utf8_printable secret
              (net_replying mo_plain PostRaises) (turn_request (JStr "s1") pay_now) world_one
              (JStr "why do you need that?") (JBool false) (JStr "s1") (JObj []) (JStr "stalling")
              world_two)
    as (contents & mo & _ & _ & _ & _ & Hstored).
  - vm_compute. reflexivity.
  - apply Hstored; reflexivity.
Defined.

(** C8, witness: the record returned by the second turn of session [s1] has
    the categories of that turn's delta. *)
Lemma intelligence_keys_are_the_deltas_witness :
  exists delta, forall category, py_in category (JObj []) = py_in category delta.
Proof.
  destruct (intelligence_keys_are_the_deltas decoder str_of utf8_printable secret
              (net_replying mo_plain PostRaises) (turn_request (JStr "s1") pay_now) world_one
              (JStr "why do you need that?") (JBool false) (JStr "s1") (JObj []) (JStr "stalling")
              world_two)
    as (contents & mo & delta & _ & _ & _ & Hkeys).
  - vm_compute. reflexivity.
  - exists delta. intros category. apply Hkeys.
Defined.

(** C3, witness: a model result with no field at all and the result with
    the four defaults. *)
Lemma missing_fields_take_defaults_witness :
  run (net_replying mo_empty PostRaises) (turn_request (JStr "s1") hello) empty_world
    = run (net_replying (with_defaults []) PostRaises) (turn_request (JStr "s1") hello) empty_world.
Proof.
  apply (missing_fields_take_defaults decoder str_of utf8_printable secret
           (net_replying mo_empty PostRaises) (net_replying (with_defaults []) PostRaises)
           (turn_request (JStr "s1") hello) empty_world []).
  - intros c. vm_compute. reflexivity.
  - intros c. vm_compute. reflexivity.
  - intros payload. reflexivity.
Defined.


(** C1, counterexample.  The first turn of session [s1] extracts the UPI id
    [test@upi]; the second turn succeeds with an empty delta, and the id is
    no longer in the stored record. *)
Lemma intelligence_accumulation_counterexample :
  In (JStr "test@upi") (artifacts "upiIds" world_one (KStr "s1")) /\
  fst (run (net_replying mo_plain PostRaises) (turn_request (JStr "s1") pay_now) world_one)
    = Ok (success_response (JStr "why do you need that?") (JBool false) (JStr "s1")
            (JObj []) (JStr "stalling")) /\
  ~ In (JStr "test@upi") (artifacts "upiIds" world_two (KStr "s1")).
Proof.
  split; [|split].
  - vm_compute. left. reflexivity.
  - vm_compute. reflexivity.
  - vm_compute. intros [].
Qed.

(** C3, counterexample.  The model result is the empty object, so all four
    fields are missing; the turn succeeds with status 200 and the defaults
    in the response. *)
Lemma missing_fields_counterexample :
  fst (run (net_replying mo_empty PostRaises) (turn_request (JStr "s1") hello) empty_world)
    = Ok (success_response JNull (JBool false) (JStr "s1") (JObj []) (JStr EmptyString)).
Proof. vm_compute. reflexivity. Qed.

(** C8, counterexample.  After the second turn of session [s1], whose delta
    names no category, the record returned and the record stored hold none
    of the five category keys. *)
Lemma intelligence_keys_counterexample :
  response_field "extractedIntelligence"
    (fst (run (net_replying mo_plain PostRaises) (turn_request (JStr "s1") pay_now) world_one))
    = Some (JObj []) /\
  intelligence <$> (session_store world_two !! KStr "s1") = Some (JObj []) /\
  Forall (fun category => py_in category (JObj []) = Ok false)
    ["bankAccounts"; "upiIds"; "phishingLinks"; "phoneNumbers"; "suspiciousKeywords"].
Proof.
  split; [|split].
  - vm_compute. reflexivity.
  - vm_compute. reflexivity.
  - repeat constructor.
Qed.



(** C4.  A session whose id cannot be printed survives its termination.
    The session id is a lone surrogate and the report endpoint answers 200.
    The model ends the conversation on the first turn; line 169 writes the
    entry, [send_final_report] posts the report and raises at its [print]
    of line 89, the [print] of line 212 raises again, and line 180 is never
    reached.  The entry is still in the store, and the next request of the
    session without a history is a continuation: the stored list is its
    resolved history, and the model is sent the earlier exchange. *)
Theorem unprintable_session_survives_termination :
  let net := net_replying mo_final (PostReturns (HttpResponse 200 "ok")) in
  let k := KStr lone_surrogate in
  let w1 := snd (run net surrogate_request empty_world) in
  model_result decoder (gemini net [Content "user" (JStr "hello")]) = Ok mo_final /\
  py_get mo_final "isConversationOver" (JBool false) = Ok (JBool true) /\
  fst (run net surrogate_request empty_world) = Raise UnicodeEncodeError /\
  history <$> (session_store w1 !! k) = Some (JArr [hello; agent_entry (JStr "goodbye")]) /\
  resolve_history (get_json surrogate_request) (JStr lone_surrogate) w1
    = (Ok (ListVar (Some k) (JArr [hello; agent_entry (JStr "goodbye")])), w1) /\
  nth_error (calls (snd (run net surrogate_request w1))) 2
    = Some (GeminiCalled [Content "user" (JStr "hello"); Content "model" (JStr "goodbye");
                          Content "user" (JStr "hello")]).
Proof.
  intros net k w1. repeat split; vm_compute; reflexivity.
Qed.

(** C6.  The report of a session whose id cannot be printed.  The session
    id is a lone surrogate.  With the report endpoint unreachable
    [send_final_report] raises at its [print] of line 93, inside the handler
    of [requests.RequestException]; with the endpoint answering 500 it
    raises at line 89.  The terminal turn of that session is not answered
    with success: the exception leaves the handler, and the session is
    still in the store. *)
Theorem unprintable_session_breaks_the_report :
  let sid := JStr lone_surrogate in
  let intel := JObj [("phoneNumbers", JArr [JStr "5550100"])] in
  let notes := JStr "scammer gave up" in
  fst (send_final_report str_of utf8_printable net_down sid 2 intel notes empty_world)
    = Raise UnicodeEncodeError /\
  fst (send_final_report str_of utf8_printable (Network (gemini net_down) guvi_broken)
         sid 2 intel notes empty_world)
    = Raise UnicodeEncodeError /\
  fst (run terminal_net surrogate_request empty_world) = Raise UnicodeEncodeError /\
  calls (snd (run terminal_net surrogate_request empty_world))
    = [GeminiCalled [Content "user" (JStr "hello")];
       ReportSent (report_payload sid 2 intel notes)] /\
  history <$> (session_store (snd (run terminal_net surrogate_request empty_world))
                 !! KStr lone_surrogate)
    = Some (JArr [hello; agent_entry (JStr "goodbye")]).
Proof.
  intros sid intel notes. repeat split; vm_compute; reflexivity.
Qed.

(** C7.  Validation misses a body that is not an object.  An authorised
    request whose JSON body is the number 5 carries neither [sessionId] nor
    [message], yet the result is not the 400 response: [in] raises a
    [TypeError] that leaves the handler.  The store is unchanged and no call
    is made. *)
Theorem numeric_body_escapes_validation :
  run net_down (Request (Some secret) (JNum 5)) world_one = (Raise TypeError, world_one).
Proof. vm_compute. reflexivity. Qed.

(** *** Closed instances of the further properties *)

(** X1, witness: a wrong key is answered 401; the right key is not. *)
Lemma bad_key_is_answered_401_witness :
  run net_down (Request (Some "wrong") (JNum 5)) world_one
    = (Ok (error_response "Unauthorized" 401), world_one) /\
  fst (run net_down second_request world_one) <> Ok (error_response "Unauthorized" 401).
Proof.
  destruct (bad_key_is_answered_401 decoder str_of utf8_printable secret net_down world_one) as [Hbad Hgood].
  split.
  - apply Hbad. right. right. exists "wrong". split; [reflexivity|discriminate].
  - apply Hgood; [reflexivity|discriminate].
Defined.

(** X2, witness: an object without [message]. *)
Lemma incomplete_body_is_answered_400_witness :
  run net_down (Request (Some secret) (JObj [("sessionId", JStr "s1")])) world_one
    = (Ok (error_response "Invalid request body" 400), world_one).
Proof.
  apply (incomplete_body_is_answered_400 decoder str_of utf8_printable secret net_down
           (Request (Some secret) (JObj [("sessionId", JStr "s1")])) world_one).
  - reflexivity.
  - right. exists [("sessionId", JStr "s1")]. split; [reflexivity|]. right. reflexivity.
Defined.

(** X4, witness: the message is a string. *)
Lemma malformed_message_stops_the_turn_witness :
  let req := turn_request (JStr "s1") (JStr "pay now") in
  snd (run (net_replying mo_plain PostRaises) req world_one) = world_one /\
  exists e, fst (run (net_replying mo_plain PostRaises) req world_one) = Raise e.
Proof.
  intros req.
  destruct (malformed_message_stops_the_turn decoder str_of utf8_printable secret
              (net_replying mo_plain PostRaises) req world_one
              (fst (run (net_replying mo_plain PostRaises) req world_one))
              (snd (run (net_replying mo_plain PostRaises) req world_one))
              (JStr "pay now"))
    as (Hw & _ & He).
  - apply run_pair.
  - reflexivity.
  - intros fields. discriminate.
  - split; [exact Hw|]. apply He; reflexivity.
Defined.

(** X5, witness: the model service is unreachable and the store is as it
    was; the terminal turn of the session whose id cannot be printed has
    posted its report and is a failure. *)
Lemma failed_turn_and_the_store_witness :
  session_store (snd (run net_down second_request world_one)) = session_store world_one /\
  failure_response (fst (run terminal_net surrogate_request empty_world)).
Proof.
  split.
  - destruct (failed_turn_and_the_store decoder str_of utf8_printable secret net_down
                second_request world_one
                (fst (run net_down second_request world_one))
                (snd (run net_down second_request world_one))) as [Hkeep _].
    + apply run_pair.
    + intros reply over sid intel notes H. vm_compute in H. discriminate H.
    + apply Hkeep. intros c payload H. vm_compute in H. discriminate H.
  - destruct (failed_turn_and_the_store decoder str_of utf8_printable secret terminal_net
                surrogate_request empty_world
                (fst (run terminal_net surrogate_request empty_world))
                (snd (run terminal_net surrogate_request empty_world))) as [_ Hrep].
    + apply run_pair.
    + intros reply over sid intel notes H. vm_compute in H. discriminate H.
    + destruct (Hrep [Content "user" (JStr "hello")]
                  (report_payload (JStr lone_surrogate) 2
                     (JObj [("phoneNumbers", JArr [JStr "5550100"])])
                     (JStr "scammer gave up"))) as [Hfail _].
      * vm_compute. reflexivity.
      * exact Hfail.
Defined.

(** X6, witness: a turn of session [s2] leaves the entry of [s1]. *)
Lemma other_sessions_are_untouched_witness :
  let req := turn_request (JStr "s2") hello in
  session_store (snd (run (net_replying mo_plain PostRaises) req world_one)) !! KStr "s1"
    = session_store world_one !! KStr "s1".
Proof.
  intros req.
  apply (other_sessions_are_untouched decoder str_of utf8_printable secret
           (net_replying mo_plain PostRaises) req world_one
           (fst (run (net_replying mo_plain PostRaises) req world_one))).
  - apply run_pair.
  - intros sid H. vm_compute in H. injection H as <-. discriminate.
Defined.

(** X7, witness: the terminal turn of session [s1]. *)
Lemma at_most_one_call_each_witness :
  let r := fst (run terminal_net second_request world_two) in
  let w' := snd (run terminal_net second_request world_two) in
  calls w' = calls world_two \/
  (exists c, calls w' = calls world_two ++ [GeminiCalled c]) \/
  (exists c mo reply over sid intel notes n,
      calls w' = calls world_two ++
        [GeminiCalled c; ReportSent (report_payload sid n intel notes)] /\
      model_result decoder (gemini terminal_net c) = Ok mo /\
      py_get mo "isConversationOver" (JBool false) = Ok over /\
      truthy over = true /\
      (r = Ok (success_response reply over sid intel notes) \/
       r = Ok (error_response "Internal server error" 500) \/
       r = Raise UnicodeEncodeError)).
Proof.
  intros r w'.
  apply (at_most_one_call_each decoder str_of utf8_printable secret terminal_net
           second_request world_two).
  apply run_pair.
Defined.

(** X8, witness: the terminal turn of session [s1] reports six messages. *)
Lemma report_counts_the_whole_history_witness :
  let w' := snd (run terminal_net second_request world_two) in
  exists ch l contents,
    py_getitem (get_json second_request) "sessionId" = Ok (JStr "s1") /\
    resolve_history (get_json second_request) (JStr "s1") world_two = (Ok ch, world_two) /\
    value ch = JArr l /\
    calls w' = calls world_two ++
      [GeminiCalled contents;
       ReportSent (JObj [("sessionId", JStr "s1");
                         ("scamDetected", JBool true);
                         ("totalMessagesExchanged", JNum (Z.of_nat (List.length l) + 2));
                         ("extractedIntelligence",
                          JObj [("phoneNumbers", JArr [JStr "5550100"])]);
                         ("agentNotes", JStr "scammer gave up")])].
Proof.
  intros w'.
  apply (report_counts_the_whole_history decoder str_of utf8_printable secret terminal_net second_request
           world_two (JStr "goodbye") (JBool true)).
  - vm_compute. reflexivity.
  - reflexivity.
Defined.

(** X9, witness: session [s1] has two entries in store; the request brings
    a history of one entry, and three entries are stored afterwards. *)
Lemma supplied_history_replaces_the_stored_one_witness :
  stored_history (snd (run (net_replying mo_plain PostRaises) stateless_request world_two))
    (KStr "s1")
    = JArr ([hello] ++ [message_of stateless_request;
                         agent_turn (JStr "why do you need that?")]).
Proof.
  apply (supplied_history_replaces_the_stored_one decoder str_of utf8_printable secret
           (net_replying mo_plain PostRaises) stateless_request world_two
           (JStr "why do you need that?") (JBool false) (JStr "s1") (JObj []) (JStr "stalling")).
  - vm_compute. reflexivity.
  - reflexivity.
  - reflexivity.
  - reflexivity.
Defined.

(** X10, witness: the notes stored after the second turn of [s1]. *)
Lemma notes_are_the_latest_witness :
  agent_notes <$> (session_store world_two !! KStr "s1") = Some (JStr "stalling").
Proof.
  destruct (notes_are_the_latest decoder str_of utf8_printable secret
              (net_replying mo_plain PostRaises) second_request world_one
              (JStr "why do you need that?") (JBool false) (JStr "s1") (JObj []) (JStr "stalling")
              world_two)
    as (contents & mo & _ & _ & _ & _ & Hstored).
  - vm_compute. reflexivity.
  - apply Hstored; reflexivity.
Defined.

(** X11, witness: the transcript of the second turn of [s1]. *)
Lemma model_sees_the_stored_transcript_witness :
  build_contents (stored_history world_one (KStr "s1")) (message_of second_request)
    = Ok contents_two.
Proof.
  apply (model_sees_the_stored_transcript decoder str_of utf8_printable secret
           (net_replying mo_plain PostRaises) second_request world_one
           (fst (run (net_replying mo_plain PostRaises) second_request world_one))
           (snd (run (net_replying mo_plain PostRaises) second_request world_one))
           contents_two [] (JStr "s1")).
  - apply run_pair.
  - vm_compute. reflexivity.
  - reflexivity.
  - reflexivity.
  - reflexivity.
Defined.

(** X12, witness: the session id is a list. *)
Lemma unhashable_session_id_never_succeeds_witness :
  let req := turn_request (JArr [JStr "s1"]) hello in
  fst (run (net_replying mo_plain PostRaises) req world_one) = Raise TypeError /\
  snd (run (net_replying mo_plain PostRaises) req world_one) = world_one.
Proof.
  intros req.
  destruct (unhashable_session_id_never_succeeds decoder str_of utf8_printable secret
              (net_replying mo_plain PostRaises) req world_one
              (fst (run (net_replying mo_plain PostRaises) req world_one))
              (snd (run (net_replying mo_plain PostRaises) req world_one))
              (JArr [JStr "s1"]))
    as (_ & _ & Hraise).
  - apply run_pair.
  - reflexivity.
  - reflexivity.
  - apply (Hraise (JArr [])); reflexivity.
Defined.

(** X13, witness: the model service rejects the API key. *)
Lemma upstream_error_message_is_relayed_witness :
  fst (handle_honeypot_request decoder_errors str_of utf8_printable secret net_rejecting second_request world_one)
    = Ok (error_response "AI Service Error: API key not valid" 502).
Proof.
  destruct (upstream_error_message_is_relayed decoder_errors str_of utf8_printable secret net_rejecting
              second_request world_one
              (fst (handle_honeypot_request decoder_errors str_of utf8_printable secret net_rejecting
                      second_request world_one))
              (snd (handle_honeypot_request decoder_errors str_of utf8_printable secret net_rejecting
                      second_request world_one))
              contents_two [] (HttpResponse 400 (dumps quota_error))
              [("error", JObj [("code", JNum 400); ("message", JStr "API key not valid")])])
    as (Hrelay & _).
  - apply surjective_pairing.
  - vm_compute. reflexivity.
  - reflexivity.
  - cbn. lia.
  - vm_compute. reflexivity.
  - rewrite (Hrelay [("code", JNum 400); ("message", JStr "API key not valid")]
               (JStr "API key not valid")); reflexivity.
Defined.

(** X14, witness: the model service answers 500 with the body [5]. *)
Lemma scalar_error_body_escapes_witness :
  fst (handle_honeypot_request decoder_errors str_of utf8_printable secret net_garbled second_request world_one)
    = Raise TypeError /\
  session_store
    (snd (handle_honeypot_request decoder_errors str_of utf8_printable secret net_garbled
            second_request world_one))
    = session_store world_one.
Proof.
  apply (scalar_error_body_escapes decoder_errors str_of utf8_printable secret net_garbled
           second_request world_one _ _ contents_two [] (HttpResponse 500 "5") (JNum 5)).
  - apply surjective_pairing.
  - vm_compute. reflexivity.
  - reflexivity.
  - cbn. lia.
  - vm_compute. reflexivity.
  - reflexivity.
Defined.

(** X15, witness: an environment with both secrets. *)
Lemma started_service_has_both_secrets_witness :
  startup env_ok = Started (Config "g-key" secret) /\
  unauthorized secret (Some secret) = false.
Proof.
  destruct (started_service_has_both_secrets env_ok) as [Hstart Hauth].
  assert (Hs : startup env_ok = Started (Config "g-key" secret)).
  { apply Hstart. cbn. repeat split; (reflexivity || discriminate). }
  split; [exact Hs|]. apply (Hauth _ _ Hs). reflexivity.
Defined.

(** X16, witness: the two turns of session [s1] from the empty store. *)
Lemma stored_histories_end_with_the_agent_witness :
  histories_end_with_agent
    (session_store (snd (run_turns decoder str_of utf8_printable secret two_turns empty_world))).
Proof.
  apply (stored_histories_end_with_the_agent decoder str_of utf8_printable secret two_turns empty_world).
  intros k s H. cbn in H. rewrite lookup_empty in H. discriminate H.
Defined.

(** X17, witness: the second turn of [s1] fails with the model service
    unreachable and is then retried. *)
Lemma retry_after_failure_is_a_fresh_attempt_witness :
  let w1 := snd (run net_down second_request world_one) in
  let net := net_replying mo_plain PostRaises in
  fst (run net second_request w1) = fst (run net second_request world_one) /\
  session_store (snd (run net second_request w1))
    = session_store (snd (run net second_request world_one)).
Proof.
  intros w1 net.
  apply (retry_after_failure_is_a_fresh_attempt decoder str_of utf8_printable secret net_down net
           second_request second_request world_one
           (fst (run net_down second_request world_one))).
  - apply run_pair.
  - intros reply over sid intel notes H. vm_compute in H. discriminate H.
  - intros c payload H. vm_compute in H. discriminate H.
Defined.

(** X18, witness: the body [true]. *)
Lemma non_object_body_is_400_or_TypeError_witness :
  run net_down (Request (Some secret) (JBool true)) world_one = (Raise TypeError, world_one).
Proof.
  destruct (non_object_body_is_400_or_TypeError decoder str_of utf8_printable secret net_down
              (Request (Some secret) (JBool true)) world_one) as (_ & Hscalar).
  - reflexivity.
  - intros fields. discriminate.
  - apply Hscalar; reflexivity.
Defined.
